(** * Dudil: chat-session lifecycle, chat-history store and emotion annotation

    A shallow embedding of [utils.py], [sidebar.py] and
    [src/core/session_manager.py], and the properties of the chat-history
    lifecycle proved about it.

    Conventions of the embedding.
    - A Python [str] is a Rocq [string]; one [ascii] stands for one code point
      in U+0000..U+00FF, so slicing and [len] count characters as Python does.
    - Python dictionaries used as maps ([chat_history], the multi-user
      document) are [gmap string _]; dictionaries used as structs (a message,
      an archived chat, an emotion analysis) are records, a field read with
      [.get(key, default)] being an [option].
    - [st.session_state], the files on disk and the notices sent to the page
      are threaded explicitly through a [world] record.
    - A call that may raise returns a [Py.result]; [try]/[except] is a match
      on it.
    - [json.dump] and [json.load] belong to the Python library: a file is
      known by what [open] and [json.load] make of it, a document ([Fs.Json])
      or one of the exceptions they raise. *)

From Stdlib Require Import String Ascii List ZArith Lia Bool Floats.
From Stdlib Require Import DecimalString.
From stdpp Require Import base gmap strings list option.

(** ** Python values and exceptions *)

Module Py.

(** Subclasses of [Exception] that the modelled code can meet. *)
Inductive exn :=
| JSONDecodeError
| UnicodeDecodeError
| FileNotFoundError
| PermissionError
| RecursionError
| KeyError (key : string)
| ValueError
| RuntimeError (msg : string).

Inductive result (A : Type) :=
| Return (a : A)
| Raise (e : exn).
Arguments Return {A} a.
Arguments Raise {A} e.

Definition bind {A B} (m : result A) (k : A -> result B) : result B :=
  match m with
  | Return a => k a
  | Raise e => Raise e
  end.

(** [str.isspace] on one character (code points below 256). *)
Definition isspace (c : ascii) : bool :=
  let n := nat_of_ascii c in
  ((9 <=? n) && (n <=? 13)) || ((28 <=? n) && (n <=? 32))
  || (n =? 133) || (n =? 160).

Fixpoint lstrip (s : string) : string :=
  match s with
  | EmptyString => EmptyString
  | String c s' => if isspace c then lstrip s' else s
  end.

Fixpoint rstrip (s : string) : string :=
  match s with
  | EmptyString => EmptyString
  | String c s' =>
      match rstrip s' with
      | EmptyString => if isspace c then EmptyString else String c EmptyString
      | r => String c r
      end
  end.

(** [s.strip()] *)
Definition strip (s : string) : string := rstrip (lstrip s).

(** Truth value of a string: [not s] holds for the empty string only. *)
Definition truthy (s : string) : bool :=
  match s with
  | EmptyString => false
  | String _ _ => true
  end.

(** [str.lower] on one character (code points below 256). *)
Definition lower_char (c : ascii) : ascii :=
  let n := nat_of_ascii c in
  if ((65 <=? n) && (n <=? 90))
     || ((192 <=? n) && (n <=? 222) && negb (n =? 215))
  then ascii_of_nat (n + 32)
  else c.

Fixpoint lower (s : string) : string :=
  match s with
  | EmptyString => EmptyString
  | String c s' => String (lower_char c) (lower s')
  end.

(** [s[:n]] *)
Definition slice_to (n : nat) (s : string) : string := substring 0 n s.

Fixpoint all_chars (p : ascii -> bool) (s : string) : bool :=
  match s with
  | EmptyString => true
  | String c s' => p c && all_chars p s'
  end.

End Py.

(** ** [datetime.now()], [strftime] and [isoformat] *)

Module Datetime.

Record t := {
  year : N; month : N; day : N;
  hour : N; minute : N; second : N;
  microsecond : N
}.

(** The ranges [datetime] enforces on its fields, for a year of four
    digits (the years in which [%Y] prints four digits on every platform). *)
Definition valid (d : t) : Prop :=
  (1000 <= year d <= 9999)%N /\ (1 <= month d <= 12)%N /\ (1 <= day d <= 31)%N
  /\ (hour d < 24)%N /\ (minute d < 60)%N /\ (second d < 60)%N
  /\ (microsecond d < 1000000)%N.

(** Two instants fall within the same second. *)
Definition same_second (a b : t) : Prop :=
  year a = year b /\ month a = month b /\ day a = day b
  /\ hour a = hour b /\ minute a = minute b /\ second a = second b.

Definition digit (n : N) : ascii := ascii_of_N (48 + n mod 10).

(** The [w] low-order decimal digits of [n] in front of [acc]: the
    zero-padded field [%0wd] for a value below [10^w]. *)
Fixpoint zero_padded (w : nat) (n : N) (acc : string) : string :=
  match w with
  | O => acc
  | S w' => zero_padded w' (n / 10) (String (digit n) acc)
  end.

(** [d.strftime('%Y%m%d_%H%M%S')] *)
Definition strftime_Ymd_HMS (d : t) : string :=
  zero_padded 4 (year d) (zero_padded 2 (month d) (zero_padded 2 (day d)
    (String "_" (zero_padded 2 (hour d) (zero_padded 2 (minute d)
       (zero_padded 2 (second d) EmptyString)))))).

(** [d.isoformat()] *)
Definition isoformat (d : t) : string :=
  zero_padded 4 (year d) (String "-" (zero_padded 2 (month d) (String "-"
    (zero_padded 2 (day d) (String "T" (zero_padded 2 (hour d) (String ":"
      (zero_padded 2 (minute d) (String ":" (zero_padded 2 (second d)
        (match microsecond d with
         | N0 => EmptyString
         | us => String "." (zero_padded 6 us EmptyString)
         end))))))))))).

End Datetime.

(** ** Data model *)

(** One [{label, score}] dictionary of the classifier's output. *)
Record score_entry := { label : string; score : float }.

Module EmotionAnalysis.
Record t := {
  emotion : string;
  confidence : float;
  intensity : Z;
  raw_results : option (list score_entry);
  model_type : option string
}.
End EmotionAnalysis.

Module Message.
Record t := {
  role : string;
  content : option string;
  emotion_analysis : option EmotionAnalysis.t;
  timestamp : string
}.
End Message.

(** An archived chat: the value stored under a [chat_id]. *)
Module ChatEntry.
Record t := {
  messages : option (list Message.t);
  title : option string;
  timestamp : option string
}.
End ChatEntry.

(** ** Files *)

Module Fs.

(** What a path holds, seen through [open] and [json.load]: bytes that are
    not text in the encoding of the file ([UnicodeDecodeError]), text that
    is not JSON ([JSONDecodeError]), the serialisation of a document, text
    whose brackets nest deeper than the decoder can recurse
    ([RecursionError]), or a file on which the process has no rights: [open]
    raises [PermissionError], an [OSError], for reading as for writing, and
    the file can be neither renamed nor replaced. A file that could be
    written and not read is not represented. *)
Inductive file (D : Type) :=
| Undecodable (raw : string)
| Malformed (raw : string)
| Json (doc : D)
| TooDeep (raw : string)
| Denied.
Arguments Undecodable {D} raw.
Arguments Malformed {D} raw.
Arguments Json {D} doc.
Arguments TooDeep {D} raw.
Arguments Denied {D}.

(** [write_protected] lists the paths that can be neither written, created
    nor renamed, a file that is there remaining readable. *)
Record t (D : Type) := {
  files : gmap string (file D);
  write_protected : gset string
}.
Arguments files {D} _.
Arguments write_protected {D} _.

Section Operations.
Context {D : Type}.

Definition is_denied (f : file D) : bool :=
  match f with
  | Denied => true
  | _ => false
  end.

(** The paths on which writing and renaming are refused: the write-protected
    ones and those of the files the process has no rights on. *)
Definition readonly (fs : t D) : gset string :=
  write_protected fs
  ∪ dom (filter (fun entry => is_denied (snd entry) = true) (files fs)).

(** [os.path.exists(path)] *)
Definition exists_ (fs : t D) (path : string) : bool :=
  match files fs !! path with
  | Some _ => true
  | None => false
  end.

(** [with open(path, 'r') as f: json.load(f)] *)
Definition json_load (fs : t D) (path : string) : Py.result D :=
  match files fs !! path with
  | None => Py.Raise Py.FileNotFoundError
  | Some (Undecodable _) => Py.Raise Py.UnicodeDecodeError
  | Some (Malformed _) => Py.Raise Py.JSONDecodeError
  | Some (TooDeep _) => Py.Raise Py.RecursionError
  | Some Denied => Py.Raise Py.PermissionError
  | Some (Json doc) => Py.Return doc
  end.

(** [with open(path, 'w') as f: json.dump(doc, f, ...)] *)
Definition json_dump (fs : t D) (path : string) (doc : D) : Py.result (t D) :=
  if decide (path ∈ readonly fs) then Py.Raise Py.PermissionError
  else Py.Return {| files := <[path := Json doc]> (files fs);
                    write_protected := write_protected fs |}.

(** [os.rename(src, dst)]; an existing [dst] is replaced. *)
Definition rename (fs : t D) (src dst : string) : Py.result (t D) :=
  match files fs !! src with
  | None => Py.Raise Py.FileNotFoundError
  | Some f =>
      if decide (src ∈ readonly fs \/ dst ∈ readonly fs)
      then Py.Raise Py.PermissionError
      else Py.Return {| files := <[dst := f]> (delete src (files fs));
                        write_protected := write_protected fs |}
  end.

End Operations.

Arguments readonly : simpl never.

End Fs.

(** ** Notices sent to the page ([st.error], [st.warning], ...) *)

Module St.
Inductive level := error | warning | info | success.

(** [text] is the fixed part of the message, [cause] the exception that an
    f-string interpolates into it. *)
Record notice := { lvl : level; text : string; cause : option Py.exn }.
End St.

(** ** The classifier behind [load_emotion_model] *)

(** What [emotion_pipeline(text)] returns: a list of [{label, score}]
    dictionaries, or (with [return_all_scores=True]) a list of such lists. *)
Inductive pipeline_output :=
| Flat (results : list score_entry)
| Nested (results : list (list score_entry)).

(** The pipeline is an opaque callable: it returns or raises. *)
Definition pipeline := string -> Py.result pipeline_output.

(** ** [utils.py] and the state of the single-user application *)

Module Utils.

(** [st.session_state] as [app.py] initialises it. *)
Record session_state := {
  chat_history : gmap string ChatEntry.t;
  current_chat_id : string;
  messages : list Message.t
}.

(** [classifier_log] records, in order, the texts handed to the classifier. *)
Record world := {
  st : session_state;
  disk : Fs.t (gmap string ChatEntry.t);
  ui : list St.notice;
  classifier_log : list string
}.

Definition set_st (s : session_state) (w : world) : world :=
  {| st := s; disk := disk w; ui := ui w; classifier_log := classifier_log w |}.

Definition set_disk (d : Fs.t (gmap string ChatEntry.t)) (w : world) : world :=
  {| st := st w; disk := d; ui := ui w; classifier_log := classifier_log w |}.

Definition notify (l : St.level) (msg : string) (e : option Py.exn) (w : world)
  : world :=
  {| st := st w; disk := disk w;
     ui := ui w ++ [ {| St.lvl := l; St.text := msg; St.cause := e |} ];
     classifier_log := classifier_log w |}.

Definition call_classifier (arg : string) (w : world) : world :=
  {| st := st w; disk := disk w; ui := ui w;
     classifier_log := classifier_log w ++ [arg] |}.

Definition CHAT_HISTORY_FILE : string := "chat_history.json".

(** The literal [emotion_to_intensity] of [analyze_emotion]. *)
Definition emotion_to_intensity : gmap string Z :=
  list_to_map
    [ ("joy", 5%Z); ("love", 5%Z); ("surprise", 4%Z);
      ("anger", 2%Z); ("fear", 2%Z); ("sadness", 1%Z) ].

(** [max(results, key=lambda x: x['score'])]: the first entry no later
    entry beats with [>]; [ValueError] on an empty list. *)
Fixpoint max_by_score_from (best : score_entry) (rest : list score_entry)
  : score_entry :=
  match rest with
  | [] => best
  | x :: rest' =>
      if PrimFloat.ltb (score best) (score x)
      then max_by_score_from x rest'
      else max_by_score_from best rest'
  end.

Definition max_by_score (results : list score_entry) : Py.result score_entry :=
  match results with
  | [] => Py.Raise Py.ValueError
  | x :: rest => Py.Return (max_by_score_from x rest)
  end.

(** [if isinstance(results, list) and len(results) > 0:
       if isinstance(results[0], list): results = results[0]] *)
Definition unwrap_results (results : pipeline_output) : list score_entry :=
  match results with
  | Flat l => l
  | Nested [] => []
  | Nested (first :: _) => first
  end.

(** The body of the [try] block of [analyze_emotion]. *)
Definition analyze_emotion_try (text : string) (emotion_pipeline : pipeline)
    (model_type : option string) (w : world)
  : Py.result EmotionAnalysis.t * world :=
  if negb (Py.truthy text) || negb (Py.truthy (Py.strip text)) then
    (Py.Return {| EmotionAnalysis.emotion := "neutral";
                  EmotionAnalysis.confidence := 0.5%float;
                  EmotionAnalysis.intensity := 3;
                  EmotionAnalysis.raw_results := None;
                  EmotionAnalysis.model_type := model_type |}, w)
  else
    let arg := Py.slice_to 512 text in
    (Py.bind (emotion_pipeline arg) (fun results =>
     let results := unwrap_results results in
     Py.bind (max_by_score results) (fun best_result =>
     let emotion := Py.lower (label best_result) in
     let confidence := score best_result in
     let intensity := default 3%Z (emotion_to_intensity !! emotion) in
     Py.Return {| EmotionAnalysis.emotion := emotion;
                  EmotionAnalysis.confidence := confidence;
                  EmotionAnalysis.intensity := intensity;
                  EmotionAnalysis.raw_results := Some results;
                  EmotionAnalysis.model_type := model_type |})),
     call_classifier arg w).

(** [analyze_emotion(text, emotion_model_data)]; [emotion_model_data] is
    [None] or the pair [(emotion_pipeline, model_type)] that
    [load_emotion_model] returns, [(None, None)] when loading failed. *)
Definition analyze_emotion (text : string)
    (emotion_model_data : option (option pipeline * option string)) (w : world)
  : Py.result EmotionAnalysis.t * world :=
  match emotion_model_data with
  | None | Some (None, _) =>
      (Py.Return {| EmotionAnalysis.emotion := "neutral";
                    EmotionAnalysis.confidence := 0%float;
                    EmotionAnalysis.intensity := 3;
                    EmotionAnalysis.raw_results := None;
                    EmotionAnalysis.model_type := Some "none" |},
       notify St.error "DistilBERT emotion model not available" None w)
  | Some (Some emotion_pipeline, model_type) =>
      match analyze_emotion_try text emotion_pipeline model_type w with
      | (Py.Return r, w') => (Py.Return r, w')
      | (Py.Raise e, w') =>
          (Py.Return {| EmotionAnalysis.emotion := "neutral";
                        EmotionAnalysis.confidence := 0%float;
                        EmotionAnalysis.intensity := 3;
                        EmotionAnalysis.raw_results := None;
                        EmotionAnalysis.model_type := model_type |},
           notify St.error "Emotion analysis error: " (Some e) w')
      end
  end.

(** The [except (json.JSONDecodeError, UnicodeDecodeError)] clause. *)
Definition is_decode_error (e : Py.exn) : bool :=
  match e with
  | Py.JSONDecodeError | Py.UnicodeDecodeError => true
  | _ => false
  end.

(** [load_chat_history()]; [now] is the reading of [datetime.now()] that
    names the backup. *)
Definition load_chat_history (now : Datetime.t) (w : world)
  : Py.result (gmap string ChatEntry.t) * world :=
  if Fs.exists_ (disk w) CHAT_HISTORY_FILE then
    match Fs.json_load (disk w) CHAT_HISTORY_FILE with
    | Py.Return history => (Py.Return history, w)
    | Py.Raise e =>
        if is_decode_error e then
          let w := notify St.warning "Could not load chat history: " (Some e) w in
          let backup_name :=
            "chat_history_backup_" +:+ Datetime.strftime_Ymd_HMS now +:+ ".json" in
          let w :=
            match Fs.rename (disk w) CHAT_HISTORY_FILE backup_name with
            | Py.Return d =>
                notify St.info ("Corrupted history backed up as " +:+ backup_name)
                  None (set_disk d w)
            | Py.Raise _ => w
            end in
          (Py.Return ∅, w)
        else (Py.Raise e, w)
    end
  else (Py.Return ∅, w).

(** [save_chat_history(history)] *)
Definition save_chat_history (history : gmap string ChatEntry.t) (w : world)
  : world :=
  match Fs.json_dump (disk w) CHAT_HISTORY_FILE history with
  | Py.Return d => set_disk d w
  | Py.Raise e => notify St.error "Could not save chat history: " (Some e) w
  end.

(** [create_new_chat()] *)
Definition create_new_chat (now : Datetime.t) : string :=
  "chat_" +:+ Datetime.strftime_Ymd_HMS now.

(** [get_chat_title(messages)] *)
Definition get_chat_title (messages : list Message.t) : string :=
  match messages with
  | first :: _ =>
      let first_message := default EmptyString (Message.content first) in
      if (30 <? String.length first_message)%nat
      then Py.slice_to 30 first_message +:+ "..."
      else first_message
  | [] => "New Chat"
  end.

End Utils.

(** ** [sidebar.py]: the chat controls of the single-user application *)

Module Sidebar.
Import Utils.

(** The dictionary literal [{'messages': ..., 'title': get_chat_title(...),
    'timestamp': datetime.now().isoformat()}] under which a session is
    archived. *)
Definition archive_record (msgs : list Message.t) (now : Datetime.t)
  : ChatEntry.t :=
  {| ChatEntry.messages := Some msgs;
     ChatEntry.title := Some (get_chat_title msgs);
     ChatEntry.timestamp := Some (Datetime.isoformat now) |}.

(** [handle_new_chat()] once the "New Chat" button is pressed. [now_archive]
    and [now_create] are the two readings of [datetime.now()]. The final
    [st.rerun()] of each handler ends the script run and is the end of the
    function here. *)
Definition handle_new_chat (now_archive now_create : Datetime.t) (w : world)
  : world :=
  let w :=
    match messages (st w) with
    | _ :: _ =>
        let w :=
          set_st {| chat_history :=
                      <[current_chat_id (st w) :=
                          archive_record (messages (st w)) now_archive]>
                        (chat_history (st w));
                    current_chat_id := current_chat_id (st w);
                    messages := messages (st w) |} w in
        save_chat_history (chat_history (st w)) w
    | [] => w
    end in
  set_st {| chat_history := chat_history (st w);
            current_chat_id := create_new_chat now_create;
            messages := [] |} w.

(** [render_chat_item(chat_id, chat_data)], first button: load the chat. *)
Definition render_chat_item_load (chat_id : string) (chat_data : ChatEntry.t)
    (now : Datetime.t) (w : world) : world :=
  let w :=
    match messages (st w) with
    | _ :: _ =>
        set_st {| chat_history :=
                    <[current_chat_id (st w) :=
                        archive_record (messages (st w)) now]>
                      (chat_history (st w));
                  current_chat_id := current_chat_id (st w);
                  messages := messages (st w) |} w
    | [] => w
    end in
  let w :=
    set_st {| chat_history := chat_history (st w);
              current_chat_id := chat_id;
              messages := default [] (ChatEntry.messages chat_data) |} w in
  save_chat_history (chat_history (st w)) w.

(** [render_chat_item(chat_id, chat_data)], second button: delete the chat.
    [del] raises [KeyError] on a missing key. *)
Definition render_chat_item_delete (chat_id : string) (now : Datetime.t)
    (w : world) : Py.result unit * world :=
  let w :=
    if decide (chat_id = current_chat_id (st w)) then
      set_st {| chat_history := chat_history (st w);
                current_chat_id := create_new_chat now;
                messages := [] |} w
    else w in
  match chat_history (st w) !! chat_id with
  | None => (Py.Raise (Py.KeyError chat_id), w)
  | Some _ =>
      let w :=
        set_st {| chat_history := delete chat_id (chat_history (st w));
                  current_chat_id := current_chat_id (st w);
                  messages := messages (st w) |} w in
      let w := save_chat_history (chat_history (st w)) w in
      (Py.Return tt, notify St.success "Chat deleted!" None w)
  end.

End Sidebar.

(** ** [src/core/session_manager.py]: the multi-user session manager *)

Module SessionManager.

(** The keys of [st.session_state] that the chat operations use. *)
Record session_state := {
  user_id : string;
  chat_history : gmap string ChatEntry.t;
  current_chat_id : option string;
  messages : list Message.t
}.

(** The document on disk maps a user identifier to that user's chats. *)
Record world := {
  st : session_state;
  disk : Fs.t (gmap string (gmap string ChatEntry.t));
  ui : list St.notice
}.

Definition set_st (s : session_state) (w : world) : world :=
  {| st := s; disk := disk w; ui := ui w |}.

Definition set_disk (d : Fs.t (gmap string (gmap string ChatEntry.t)))
    (w : world) : world :=
  {| st := st w; disk := d; ui := ui w |}.

Definition notify (l : St.level) (msg : string) (e : option Py.exn) (w : world)
  : world :=
  {| st := st w; disk := disk w;
     ui := ui w ++ [ {| St.lvl := l; St.text := msg; St.cause := e |} ] |}.

(** [Path("data/chat_history.json")] *)
Definition chat_history_path : string := "data/chat_history.json".

(** [_load_persisted_data()], the chat-history part; every exception is
    swallowed by [except Exception: pass]. *)
Definition _load_persisted_data (w : world) : world :=
  if Fs.exists_ (disk w) chat_history_path then
    match Fs.json_load (disk w) chat_history_path with
    | Py.Return data =>
        match data !! user_id (st w) with
        | Some history =>
            set_st {| user_id := user_id (st w);
                      chat_history := history;
                      current_chat_id := current_chat_id (st w);
                      messages := messages (st w) |} w
        | None => w
        end
    | Py.Raise _ => w
    end
  else w.

(** [save_chat_history()]. Directories are not represented, so the
    [mkdir(parents=True, exist_ok=True)] of the parent has no effect here. *)
Definition save_chat_history (w : world) : world :=
  let attempt :=
    Py.bind
      (if Fs.exists_ (disk w) chat_history_path
       then Fs.json_load (disk w) chat_history_path
       else Py.Return ∅)
      (fun existing_data =>
         let existing_data :=
           <[user_id (st w) := chat_history (st w)]> existing_data in
         Fs.json_dump (disk w) chat_history_path existing_data) in
  match attempt with
  | Py.Return d => set_disk d w
  | Py.Raise _ => notify St.warning "Could not save chat history" None w
  end.

(** [create_new_chat()]; [uuid_hex] is [uuid.uuid4().hex]. *)
Definition create_new_chat (now : Datetime.t) (uuid_hex : string) (w : world)
  : string * world :=
  let chat_id :=
    "chat_" +:+ Datetime.strftime_Ymd_HMS now +:+ "_" +:+ Py.slice_to 8 uuid_hex in
  (chat_id,
   set_st {| user_id := user_id (st w);
             chat_history := chat_history (st w);
             current_chat_id := Some chat_id;
             messages := [] |} w).

(** [switch_chat(chat_id)] *)
Definition switch_chat (chat_id : string) (w : world) : world :=
  match chat_history (st w) !! chat_id with
  | Some chat_data =>
      set_st {| user_id := user_id (st w);
                chat_history := chat_history (st w);
                current_chat_id := Some chat_id;
                messages := default [] (ChatEntry.messages chat_data) |} w
  | None => notify St.warning "Chat not found" None w
  end.

(** [delete_chat(chat_id)] *)
Definition delete_chat (chat_id : string) (now : Datetime.t) (uuid_hex : string)
    (w : world) : world :=
  match chat_history (st w) !! chat_id with
  | Some _ =>
      let w :=
        set_st {| user_id := user_id (st w);
                  chat_history := delete chat_id (chat_history (st w));
                  current_chat_id := current_chat_id (st w);
                  messages := messages (st w) |} w in
      let w :=
        if decide (Some chat_id = current_chat_id (st w))
        then snd (create_new_chat now uuid_hex w)
        else w in
      save_chat_history w
  | None => w
  end.

End SessionManager.

(** ** Python list slices *)

Module PyList.

(** [l[-n:]] for a positive [n] *)
Definition last_n {A : Type} (n : nat) (l : list A) : list A :=
  drop (length l - n) l.

(** [l[:-1]] *)
Definition all_but_last {A : Type} (l : list A) : list A :=
  take (length l - 1) l.

End PyList.

(** ** [utils.py]: the reply generator *)

Module Gemini.

(** [genai.types.GenerationConfig(temperature=0.7, top_p=0.8, top_k=40,
    max_output_tokens=1024)] *)
Record generation_config := {
  temperature : float;
  top_p : float;
  top_k : Z;
  max_output_tokens : Z
}.

(** The floats are the binary64 values of the literals [0.7] and [0.8]. *)
Definition config : generation_config :=
  {| temperature := 0x1.6666666666666p-1%float;
     top_p := 0x1.999999999999ap-1%float;
     top_k := 40;
     max_output_tokens := 1024 |}.

(** What [generate_content] returns, as far as the code looks at it: a falsy
    object, an object without a [text] attribute, an object whose [text]
    raises when read, or an object with a text. *)
Inductive response :=
| Falsy
| NoTextAttribute
| TextRaises (e : Py.exn)
| Text (text : string).

(** [gemini_model.generate_content(prompt, generation_config=...)]: an
    opaque callable that returns or raises. *)
Definition model := string -> option generation_config -> Py.result response.

(** One call of [generate_content]: the prompt and the configuration. *)
Definition call : Type := string * option generation_config.

(** [response.text if response and hasattr(response, 'text') and
    response.text else None]: the text when there is a non-empty one. *)
Definition usable_text (r : response) : Py.result (option string) :=
  match r with
  | Falsy => Py.Return None
  | NoTextAttribute => Py.Return None
  | TextRaises e => Py.Raise e
  | Text s => Py.Return (if Py.truthy s then Some s else None)
  end.

(** [str(n)] for an integer *)
Definition str_int (n : Z) : string := NilZero.string_of_int (Z.to_int n).

Definition nl : string := String "010" EmptyString.

(** The indentation of the continuation lines of the prompt literal. *)
Definition indent : string := "                            ".

Section WithFormat.

(** [format(x, '.1%')], the rendering of [{confidence:.1%}]. *)
Variable percent_1 : float -> string.

(** The f-string [emotion_context], stripped. *)
Definition emotion_context (emotion : string) (intensity : Z)
    (confidence : float) : string :=
  Py.strip
    ("You are a helpful and empathetic AI assistant. The user's message has been analyzed for emotions:" +:+ nl
     +:+ indent +:+ "- Detected emotion: " +:+ emotion +:+ nl
     +:+ indent +:+ "- Intensity: " +:+ str_int intensity +:+ "/5" +:+ nl
     +:+ indent +:+ "- Confidence: " +:+ percent_1 confidence +:+ nl
     +:+ nl
     +:+ indent +:+ "Respond appropriately based on their emotional state:" +:+ nl
     +:+ indent +:+ "- Joy: Be enthusiastic and share their positive feelings" +:+ nl
     +:+ indent +:+ "- Love: Be warm and supportive of their affection" +:+ nl
     +:+ indent +:+ "- Sadness: Be empathetic, comforting, and supportive  " +:+ nl
     +:+ indent +:+ "- Anger: Be calm, understanding, and help them process feelings" +:+ nl
     +:+ indent +:+ "- Fear: Be reassuring and help alleviate concerns" +:+ nl
     +:+ indent +:+ "- Surprise: Be engaging and explore their reaction").

(** One line of the history context: the body of the [for] loop. *)
Definition history_line (msg : Message.t) : string :=
  let role :=
    if decide (Message.role msg = "user") then "User" else "Assistant" in
  let content :=
    Py.slice_to 150 (default EmptyString (Message.content msg)) in
  role +:+ ": " +:+ content
  +:+ (if (150 <? String.length (default EmptyString (Message.content msg)))%nat
       then "..." else EmptyString)
  +:+ nl.

(** The variable [history_context] once the [if] and its loop have run. *)
Definition history_context (conversation_history : list Message.t) : string :=
  if (1 <? length conversation_history)%nat then
    let recent_messages := PyList.last_n 6 conversation_history in
    fold_left (fun acc msg => acc +:+ history_line msg)
      (PyList.all_but_last recent_messages)
      (nl +:+ nl +:+ "Recent conversation context:" +:+ nl)
  else EmptyString.

Definition full_prompt (user_message : string)
    (emotion_analysis : EmotionAnalysis.t)
    (conversation_history : list Message.t) : string :=
  emotion_context (EmotionAnalysis.emotion emotion_analysis)
    (EmotionAnalysis.intensity emotion_analysis)
    (EmotionAnalysis.confidence emotion_analysis)
  +:+ history_context conversation_history
  +:+ nl +:+ nl +:+ "User's current message: " +:+ user_message
  +:+ nl +:+ nl +:+ "Your response:".

(** The handler of the inner [try]: one retry with a minimal prompt. *)
Definition simple_retry (user_message : string) (generate_content : model)
  : string :=
  match Py.bind (generate_content ("Please respond to: " +:+ user_message) None)
          usable_text with
  | Py.Return (Some text) => text
  | Py.Return None => "I'm having trouble responding right now. Please try again."
  | Py.Raise _ => "I'm having trouble responding right now. Please try again."
  end.

(** [generate_gemini_response(user_message, emotion_analysis,
    conversation_history, gemini_model)]. The result carries the reply, the
    calls of [generate_content] in order, and the world with its notices.
    On these types nothing before the inner [try] can raise, so the outer
    handler has no case. *)
Definition generate_gemini_response (user_message : string)
    (emotion_analysis : EmotionAnalysis.t)
    (conversation_history : list Message.t)
    (gemini_model : option model) (w : Utils.world)
  : string * list call * Utils.world :=
  match gemini_model with
  | None =>
      ("I'm sorry, I couldn't connect to the AI service. Please check your API key.",
       [], w)
  | Some generate_content =>
      let prompt :=
        full_prompt user_message emotion_analysis conversation_history in
      match Py.bind (generate_content prompt (Some config)) usable_text with
      | Py.Return (Some text) => (text, [(prompt, Some config)], w)
      | Py.Return None =>
          ("I apologize, but I couldn't generate a proper response. Please try again.",
           [(prompt, Some config)], w)
      | Py.Raise gen_error =>
          (simple_retry user_message generate_content,
           [(prompt, Some config);
            ("Please respond to: " +:+ user_message, None)],
           Utils.notify St.warning "Generation error: " (Some gen_error) w)
      end
  end.

End WithFormat.

End Gemini.

(** ** [app.py]: sending a message *)

Module App.

(** [st.session_state] beyond the three chat keys, and the record of the
    calls made to the reply generator. *)
Record world := {
  base : Utils.world;
  gemini_model : option Gemini.model;
  api_connected : bool;
  emotion_data : option (option pipeline * option string);
  gemini_log : list Gemini.call
}.

Definition set_base (b : Utils.world) (w : world) : world :=
  {| base := b; gemini_model := gemini_model w;
     api_connected := api_connected w; emotion_data := emotion_data w;
     gemini_log := gemini_log w |}.

Definition log_calls (calls : list Gemini.call) (w : world) : world :=
  {| base := base w; gemini_model := gemini_model w;
     api_connected := api_connected w; emotion_data := emotion_data w;
     gemini_log := gemini_log w ++ calls |}.

(** How a handler ends: it runs to its end, [st.stop()] halts the script, or
    an exception escapes. *)
Inductive outcome :=
| Completed
| Stopped
| Raised (e : Py.exn).

(** [st.session_state.messages.append(message)] *)
Definition append_message (message : Message.t) (w : Utils.world)
  : Utils.world :=
  Utils.set_st
    {| Utils.chat_history := Utils.chat_history (Utils.st w);
       Utils.current_chat_id := Utils.current_chat_id (Utils.st w);
       Utils.messages := Utils.messages (Utils.st w) ++ [message] |} w.

(** [not api_key]: the key is [None] or empty. *)
Definition key_given (api_key : option string) : bool :=
  match api_key with
  | Some key => Py.truthy key
  | None => false
  end.

(** [st.session_state.emotion_data and st.session_state.emotion_data[0]] *)
Definition model_available (data : option (option pipeline * option string))
  : bool :=
  match data with
  | Some (Some _, _) => true
  | _ => false
  end.

Section WithFormat.

Variable percent_1 : float -> string.

(** [handle_user_input(prompt, api_key)]; the three instants are the
    readings of [datetime.now()] for the user message, the reply and the
    archive. The calls that only draw the page are left out. *)
Definition handle_user_input (prompt : string) (api_key : option string)
    (now_user now_bot now_archive : Datetime.t) (w : world)
  : outcome * world :=
  if negb (key_given api_key) || negb (api_connected w) then
    (Stopped,
     set_base (Utils.notify St.error
                 "Please enter your Gemini API key and connect first." None
                 (base w)) w)
  else if negb (model_available (emotion_data w)) then
    (Stopped,
     set_base (Utils.notify St.error "Emotion model not available" None
                 (base w)) w)
  else
    match Utils.analyze_emotion prompt (emotion_data w) (base w) with
    | (Py.Raise e, b) => (Raised e, set_base b w)
    | (Py.Return emotion_analysis, b) =>
        let user_message :=
          {| Message.role := "user";
             Message.content := Some prompt;
             Message.emotion_analysis := Some emotion_analysis;
             Message.timestamp := Datetime.isoformat now_user |} in
        let b := append_message user_message b in
        let '(response, calls, b) :=
          Gemini.generate_gemini_response percent_1 prompt emotion_analysis
            (Utils.messages (Utils.st b)) (gemini_model w) b in
        let bot_message :=
          {| Message.role := "assistant";
             Message.content := Some response;
             Message.emotion_analysis := None;
             Message.timestamp := Datetime.isoformat now_bot |} in
        let b := append_message bot_message b in
        let b :=
          Utils.set_st
            {| Utils.chat_history :=
                 <[Utils.current_chat_id (Utils.st b) :=
                     Sidebar.archive_record (Utils.messages (Utils.st b))
                       now_archive]>
                   (Utils.chat_history (Utils.st b));
               Utils.current_chat_id := Utils.current_chat_id (Utils.st b);
               Utils.messages := Utils.messages (Utils.st b) |} b in
        let b := Utils.save_chat_history (Utils.chat_history (Utils.st b)) b in
        (Completed, log_calls calls (set_base b w))
    end.

End WithFormat.

End App.

(** ** [app.py] and [sidebar.py]: start-up and the API connection *)

Module Connection.

(** How a script run or a handler ends: it runs to its end, [st.stop()]
    halts the script, [st.rerun()] restarts it, or a [TypeError] escapes. *)
Inductive ending :=
| Finished
| Halted
| Rerun
| TypeError (msg : string).

(** [st.session_state] before [initialize_session_state]: a key that is not
    in the session is [None]. *)
Record startup := {
  known_chat_history : option (gmap string ChatEntry.t);
  known_current_chat_id : option string;
  known_messages : option (list Message.t);
  known_gemini_model : option (option Gemini.model);
  known_api_connected : option bool;
  known_emotion_data : option (option pipeline * option string);
  on_disk : Fs.t (gmap string ChatEntry.t);
  shown : list St.notice;
  classifier_calls : list string;
  gemini_calls : list Gemini.call
}.

(** The session of a world, every key present. *)
Definition startup_of (w : App.world) : startup :=
  {| known_chat_history := Some (Utils.chat_history (Utils.st (App.base w)));
     known_current_chat_id :=
       Some (Utils.current_chat_id (Utils.st (App.base w)));
     known_messages := Some (Utils.messages (Utils.st (App.base w)));
     known_gemini_model := Some (App.gemini_model w);
     known_api_connected := Some (App.api_connected w);
     known_emotion_data := App.emotion_data w;
     on_disk := Utils.disk (App.base w);
     shown := Utils.ui (App.base w);
     classifier_calls := Utils.classifier_log (App.base w);
     gemini_calls := App.gemini_log w |}.

(** [load_emotion_model()]; [loaded] is what the [pipeline(...)] constructor
    does, return a classifier or raise. *)
Definition load_emotion_model (loaded : Py.result pipeline) (w : Utils.world)
  : (option pipeline * option string) * Utils.world :=
  match loaded with
  | Py.Return emotion_pipeline =>
      ((Some emotion_pipeline, Some "distilbert-emotion"), w)
  | Py.Raise e =>
      ((None, None),
       Utils.notify St.error "Failed to load DistilBERT emotion model: "
         (Some e) w)
  end.

(** [initialize_session_state()]. An exception escaping
    [load_chat_history] would escape from here too; [inl] carries it. *)
Definition initialize_session_state (now_backup now_id : Datetime.t)
    (loaded : Py.result pipeline) (s : startup)
  : Py.exn + ending * App.world :=
  let w0 : Utils.world :=
    {| Utils.st := {| Utils.chat_history := ∅;
                      Utils.current_chat_id := EmptyString;
                      Utils.messages := [] |};
       Utils.disk := on_disk s;
       Utils.ui := shown s;
       Utils.classifier_log := classifier_calls s |} in
  let '(history, w1) :=
    match known_chat_history s with
    | Some history => (Py.Return history, w0)
    | None => Utils.load_chat_history now_backup w0
    end in
  match history with
  | Py.Raise e => inl e
  | Py.Return chat_history =>
      let current_chat_id :=
        match known_current_chat_id s with
        | Some chat_id => chat_id
        | None => Utils.create_new_chat now_id
        end in
      let messages := default [] (known_messages s) in
      let gemini_model := default None (known_gemini_model s) in
      let api_connected := default false (known_api_connected s) in
      let w2 :=
        Utils.set_st {| Utils.chat_history := chat_history;
                        Utils.current_chat_id := current_chat_id;
                        Utils.messages := messages |} w1 in
      match known_emotion_data s with
      | Some data =>
          inr (Finished,
               {| App.base := w2; App.gemini_model := gemini_model;
                  App.api_connected := api_connected;
                  App.emotion_data := Some data;
                  App.gemini_log := gemini_calls s |})
      | None =>
          let '(data, w3) := load_emotion_model loaded w2 in
          if App.model_available (Some data) then
            inr (Finished,
                 {| App.base :=
                      Utils.notify St.success
                        "Loaded DistilBERT emotion classification model" None w3;
                    App.gemini_model := gemini_model;
                    App.api_connected := api_connected;
                    App.emotion_data := Some data;
                    App.gemini_log := gemini_calls s |})
          else
            inr (Halted,
                 {| App.base :=
                      Utils.notify St.error
                        "Failed to load DistilBERT emotion model" None w3;
                    App.gemini_model := gemini_model;
                    App.api_connected := api_connected;
                    App.emotion_data := Some data;
                    App.gemini_log := gemini_calls s |})
      end
  end.

(** [setup_gemini_api()], the body. [getenv] is [os.getenv]; [connect] is
    [genai.configure(api_key=...)] followed by
    [genai.GenerativeModel(model_name)]. *)
Definition setup_gemini_api (getenv : string -> option string)
    (connect : string -> option string -> Py.result Gemini.model)
    (w : Utils.world) : option Gemini.model * Utils.world :=
  let api_key := getenv "GEMINI_API_KEY" in
  if negb (App.key_given api_key) then
    (None,
     Utils.notify St.error "GEMINI_API_KEY not found in environment variables"
       None w)
  else
    match connect (default EmptyString api_key) (getenv "GEMINI_MODEL") with
    | Py.Return model => (Some model, w)
    | Py.Raise e =>
        (None, Utils.notify St.error "Failed to setup Gemini API: " (Some e) w)
    end.

(** A call [setup_gemini_api(arg, ...)]. The function is declared without
    parameters, so a call that passes positional arguments raises
    [TypeError] before the body runs. *)
Definition call_setup_gemini_api (getenv : string -> option string)
    (connect : string -> option string -> Py.result Gemini.model)
    (positional : list (option string)) (w : Utils.world)
  : string + option Gemini.model * Utils.world :=
  match positional with
  | [] => inr (setup_gemini_api getenv connect w)
  | _ :: _ =>
      inl "setup_gemini_api() takes 0 positional arguments but 1 was given"
  end.

Definition set_connection (model : option Gemini.model) (connected : bool)
    (w : App.world) : App.world :=
  {| App.base := App.base w; App.gemini_model := model;
     App.api_connected := connected; App.emotion_data := App.emotion_data w;
     App.gemini_log := App.gemini_log w |}.

(** [handle_api_connection(api_key)] of [sidebar.py]; [retry_pressed] is what
    [st.button("Retry Connection")] returns. The notice text starts with
    the character U+274C in the source, left out here. *)
Definition handle_api_connection (getenv : string -> option string)
    (connect : string -> option string -> Py.result Gemini.model)
    (api_key : option string) (retry_pressed : bool) (w : App.world)
  : ending * App.world :=
  let first :=
    if App.key_given api_key && negb (App.api_connected w) then
      match call_setup_gemini_api getenv connect [api_key] (App.base w) with
      | inl msg => inl msg
      | inr (Some model, b) =>
          inr (set_connection (Some model) true (App.set_base b w))
      | inr (None, b) => inr (set_connection None false (App.set_base b w))
      end
    else inr w in
  match first with
  | inl msg => (TypeError msg, w)
  | inr w =>
      if App.key_given api_key && negb (App.api_connected w) then
        let w :=
          App.set_base
            (Utils.notify St.error "Failed to connect to Gemini API" None
               (App.base w)) w in
        if retry_pressed then (Rerun, set_connection None false w)
        else (Finished, w)
      else (Finished, w)
  end.

(** [setup_api_connection(api_key)] of [app.py]; the boolean is the value
    returned. *)
Definition setup_api_connection (getenv : string -> option string)
    (connect : string -> option string -> Py.result Gemini.model)
    (api_key : option string) (w : App.world)
  : string + bool * App.world :=
  if App.key_given api_key && negb (App.api_connected w) then
    match call_setup_gemini_api getenv connect [api_key] (App.base w) with
    | inl msg => inl msg
    | inr (Some model, b) =>
        inr (true, set_connection (Some model) true (App.set_base b w))
    | inr (None, b) =>
        inr (false,
             {| App.base := b; App.gemini_model := App.gemini_model w;
                App.api_connected := false;
                App.emotion_data := App.emotion_data w;
                App.gemini_log := App.gemini_log w |})
    end
  else inr (App.api_connected w, w).

End Connection.

(** ** [session_manager.py]: the stored user identifier *)

Module UserId.

(** The file [data/.user_id] as [open(...).read()] finds it: absent, text,
    bytes that are not text (the read raises), or a file whose mode forbids
    reading (the [open] raises). *)
Inductive id_file :=
| Missing
| Content (text : string)
| Undecodable
| Unreadable.

(** [writable] tells whether the file can be created or overwritten. *)
Record store := { file : id_file; writable : bool }.

(** [_get_stored_user_id()]; the bare [except] swallows a failed read. *)
Definition _get_stored_user_id (s : store) : option string :=
  match file s with
  | Content text => Some (Py.strip text)
  | Undecodable => None
  | Unreadable => None
  | Missing => None
  end.

(** [_store_user_id(user_id)]; the bare [except] swallows a failed write.
    A write replaces what the file holds and not its mode: a file that
    could not be read for its mode cannot be read afterwards either. *)
Definition _store_user_id (user_id : string) (s : store) : store :=
  if writable s then
    {| file := match file s with
               | Unreadable => Unreadable
               | _ => Content user_id
               end;
       writable := writable s |}
  else s.

(** [_generate_user_id()]; [uuid_hex] is [uuid.uuid4().hex]. *)
Definition _generate_user_id (uuid_hex : string) (s : store) : string * store :=
  let fresh :=
    let new_id := "user_" +:+ Py.slice_to 16 uuid_hex in
    (new_id, _store_user_id new_id s) in
  match _get_stored_user_id s with
  | Some stored_id => if Py.truthy stored_id then (stored_id, s) else fresh
  | None => fresh
  end.

(** [_generate_session_id()] *)
Definition _generate_session_id (uuid_hex : string) : string :=
  "session_" +:+ Py.slice_to 16 uuid_hex.

End UserId.

(** ** [session_manager.py]: preferences, export and import *)

Module Preferences.

(** A preference value: a flag or a name (['theme': 'dark']). *)
Inductive value :=
| Flag (b : bool)
| Name (s : string).

(** The session manager's world with the [user_preferences] key and the
    preference files. *)
Record world := {
  core : SessionManager.world;
  user_preferences : gmap string value;
  preference_files : Fs.t (gmap string value)
}.

Definition set_core (c : SessionManager.world) (w : world) : world :=
  {| core := c; user_preferences := user_preferences w;
     preference_files := preference_files w |}.

Definition set_user_preferences (p : gmap string value) (w : world) : world :=
  {| core := core w; user_preferences := p;
     preference_files := preference_files w |}.

Definition set_chat_history (h : gmap string ChatEntry.t) (w : world) : world :=
  set_core
    (SessionManager.set_st
       {| SessionManager.user_id :=
            SessionManager.user_id (SessionManager.st (core w));
          SessionManager.chat_history := h;
          SessionManager.current_chat_id :=
            SessionManager.current_chat_id (SessionManager.st (core w));
          SessionManager.messages :=
            SessionManager.messages (SessionManager.st (core w)) |} (core w))
    w.


(** [Path(f"data/users/{user_id}/preferences.json")] *)
Definition preferences_path (user_id : string) : string :=
  "data/users/" +:+ user_id +:+ "/preferences.json".

(** [_load_persisted_data()], whole: the first exception ends the [try]
    block and is swallowed. *)
Definition _load_persisted_data (w : world) : world :=
  let uid := SessionManager.user_id (SessionManager.st (core w)) in
  let chat : Py.result world :=
    if Fs.exists_ (SessionManager.disk (core w)) SessionManager.chat_history_path
    then
      Py.bind
        (Fs.json_load (SessionManager.disk (core w))
           SessionManager.chat_history_path)
        (fun data =>
           match data !! uid with
           | Some history => Py.Return (set_chat_history history w)
           | None => Py.Return w
           end)
    else Py.Return w in
  match chat with
  | Py.Raise _ => w
  | Py.Return w =>
      if Fs.exists_ (preference_files w) (preferences_path uid) then
        match Fs.json_load (preference_files w) (preferences_path uid) with
        | Py.Return p => set_user_preferences p w
        | Py.Raise _ => w
        end
      else w
  end.







End Preferences.

(** ** Sequences of session-manager operations *)

Module Script.

(** The chat operations of [SessionManager], with what each one reads from
    the clock and from [uuid4]. *)
Inductive op :=
| Load
| Save
| NewChat (now : Datetime.t) (uuid_hex : string)
| Switch (chat_id : string)
| Delete (chat_id : string) (now : Datetime.t) (uuid_hex : string).

Definition step (o : op) (w : SessionManager.world) : SessionManager.world :=
  match o with
  | Load => SessionManager._load_persisted_data w
  | Save => SessionManager.save_chat_history w
  | NewChat now uuid_hex => snd (SessionManager.create_new_chat now uuid_hex w)
  | Switch chat_id => SessionManager.switch_chat chat_id w
  | Delete chat_id now uuid_hex =>
      SessionManager.delete_chat chat_id now uuid_hex w
  end.

(** The operations of [ops] one after the other, first to last. *)
Definition run (ops : list op) (w : SessionManager.world)
  : SessionManager.world :=
  fold_left (fun w o => step o w) ops w.

End Script.

(** ** Sample data *)

Module Sample.

Definition noon : Datetime.t :=
  {| Datetime.year := 2024; Datetime.month := 1; Datetime.day := 1;
     Datetime.hour := 12; Datetime.minute := 0; Datetime.second := 0;
     Datetime.microsecond := 0 |}.

(** Half a second after [noon]. *)
Definition noon_and_a_half : Datetime.t :=
  {| Datetime.year := 2024; Datetime.month := 1; Datetime.day := 1;
     Datetime.hour := 12; Datetime.minute := 0; Datetime.second := 0;
     Datetime.microsecond := 500000 |}.

Definition two_to_noon : Datetime.t :=
  {| Datetime.year := 2024; Datetime.month := 1; Datetime.day := 1;
     Datetime.hour := 11; Datetime.minute := 58; Datetime.second := 0;
     Datetime.microsecond := 0 |}.

Definition one_pm : Datetime.t :=
  {| Datetime.year := 2024; Datetime.month := 1; Datetime.day := 1;
     Datetime.hour := 13; Datetime.minute := 0; Datetime.second := 0;
     Datetime.microsecond := 0 |}.

(** Two values of [uuid.uuid4().hex] that agree on their first eight digits. *)
Definition uuid_a : string := "0a1b2c3d4e5f40718293a4b5c6d7e8f9".
Definition uuid_b : string := "0a1b2c3d99994999a999999999999999".
Definition uuid_c : string := "7f3e2d1c0b0a4f9e8d7c6b5a49382716".

(** An annotated user message, an assistant reply whose content has a
    character outside ASCII (U+00E9), and the chat they form. *)
Definition fear : EmotionAnalysis.t :=
  {| EmotionAnalysis.emotion := "fear";
     EmotionAnalysis.confidence := 0.75%float;
     EmotionAnalysis.intensity := 2;
     EmotionAnalysis.raw_results :=
       Some [ {| label := "fear"; score := 0.75%float |};
              {| label := "joy"; score := 0.25%float |} ];
     EmotionAnalysis.model_type := Some "distilbert-emotion" |}.

Definition anxious : Message.t :=
  {| Message.role := "user";
     Message.content := Some "I feel anxious";
     Message.emotion_analysis := Some fear;
     Message.timestamp := "2024-01-01T11:58:00" |}.

Definition reply : Message.t :=
  {| Message.role := "assistant";
     Message.content :=
       Some ("I hear that you're anxious. Caf" +:+ String "233" "?");
     Message.emotion_analysis := None;
     Message.timestamp := "2024-01-01T11:58:02" |}.

Definition chat : ChatEntry.t :=
  {| ChatEntry.messages := Some [anxious; reply];
     ChatEntry.title := Some "I feel anxious";
     ChatEntry.timestamp := Some "2024-01-01T11:58:03" |}.

Definition happy : Message.t :=
  {| Message.role := "user";
     Message.content := Some "I am so happy today! Everything is going great!";
     Message.emotion_analysis := None;
     Message.timestamp := "2024-01-01T12:00:01" |}.

Definition history : gmap string ChatEntry.t :=
  {[ "chat_20240101_115800" := chat ]}.

Definition manager_history : gmap string ChatEntry.t :=
  {[ "chat_20240101_115800_7f3e2d1c" := chat ]}.

(** Thirty-five times the letter A. *)
Definition thirty_five_a : string := "AAAAAAAAAAAAAAAAAAAAAAAAAAAAAAAAAAA".

Definition long_message : Message.t :=
  {| Message.role := "user";
     Message.content := Some thirty_five_a;
     Message.emotion_analysis := None;
     Message.timestamp := "2024-01-01T12:00:02" |}.

(** A classifier that answers every text with the same scores, its best
    label being none of the six the application maps to an intensity. *)
Definition classifier : pipeline :=
  fun _ =>
    Py.Return (Nested [ [ {| label := "joy"; score := 0.25%float |};
                          {| label := "Disgust"; score := 0.5%float |};
                          {| label := "sadness"; score := 0.25%float |} ] ]).

(** A classifier that fails on every text. *)
Definition broken_classifier : pipeline :=
  fun _ => Py.Raise (Py.RuntimeError "CUDA out of memory").

Definition empty_disk {D : Type} : Fs.t D :=
  {| Fs.files := ∅; Fs.write_protected := ∅ |}.

(** A disk whose only file, at [path], is not JSON. *)
Definition corrupt_disk {D : Type} (path : string) : Fs.t D :=
  {| Fs.files := {[ path := Fs.Malformed "{chat_1: [truncated" ]}; Fs.write_protected := ∅ |}.

(** The single-user application with the chat open and nothing saved yet. *)
Definition utils_world : Utils.world :=
  {| Utils.st := {| Utils.chat_history := ∅;
                    Utils.current_chat_id := "chat_20240101_115800";
                    Utils.messages := [anxious; reply] |};
     Utils.disk := empty_disk;
     Utils.ui := [];
     Utils.classifier_log := [] |}.

(** The single-user application starting on a corrupt history file. *)
Definition utils_world_corrupt : Utils.world :=
  {| Utils.st := {| Utils.chat_history := ∅;
                    Utils.current_chat_id := "chat_20240101_120000";
                    Utils.messages := [] |};
     Utils.disk := corrupt_disk Utils.CHAT_HISTORY_FILE;
     Utils.ui := [];
     Utils.classifier_log := [] |}.

(** The single-user application with the archived chat open again. *)
Definition utils_world_archived : Utils.world :=
  {| Utils.st := {| Utils.chat_history := history;
                    Utils.current_chat_id := "chat_20240101_115800";
                    Utils.messages := [anxious; reply] |};
     Utils.disk := empty_disk;
     Utils.ui := [];
     Utils.classifier_log := [] |}.

(** A session of the multi-user application: the user has one archived
    chat and an open one, with one message, that is not in the history; the
    file on disk holds another user's chats. *)
Definition session_a : SessionManager.session_state :=
  {| SessionManager.user_id := "user_00000000000000aa";
     SessionManager.chat_history := manager_history;
     SessionManager.current_chat_id := Some "chat_20240101_120000_0a1b2c3d";
     SessionManager.messages := [happy] |}.

(** The same user with the archived chat open. *)
Definition session_a_archived : SessionManager.session_state :=
  {| SessionManager.user_id := "user_00000000000000aa";
     SessionManager.chat_history := manager_history;
     SessionManager.current_chat_id := Some "chat_20240101_115800_7f3e2d1c";
     SessionManager.messages := [anxious; reply] |}.

Definition document_b : gmap string (gmap string ChatEntry.t) :=
  {[ "user_00000000000000bb" := {[ "chat_20231231_090000_7f3e2d1c" := chat ]} ]}.

Definition manager_world : SessionManager.world :=
  {| SessionManager.st := session_a;
     SessionManager.disk :=
       {| Fs.files := {[ SessionManager.chat_history_path := Fs.Json document_b ]};
          Fs.write_protected := ∅ |};
     SessionManager.ui := [] |}.

Definition manager_world_archived : SessionManager.world :=
  {| SessionManager.st := session_a_archived;
     SessionManager.disk :=
       {| Fs.files := {[ SessionManager.chat_history_path := Fs.Json document_b ]};
          Fs.write_protected := ∅ |};
     SessionManager.ui := [] |}.

(** The same user in a fresh process: nothing loaded yet. *)
Definition fresh_session_a : SessionManager.session_state :=
  {| SessionManager.user_id := "user_00000000000000aa";
     SessionManager.chat_history := ∅;
     SessionManager.current_chat_id := None;
     SessionManager.messages := [] |}.

Definition manager_world_corrupt : SessionManager.world :=
  {| SessionManager.st := fresh_session_a;
     SessionManager.disk := corrupt_disk SessionManager.chat_history_path;
     SessionManager.ui := [] |}.

(** Another user of the multi-user application, with one chat open. *)
Definition manager_world_c : SessionManager.world :=
  {| SessionManager.st :=
       {| SessionManager.user_id := "user_00000000000000cc";
          SessionManager.chat_history :=
            {[ "chat_20240101_130000_0a1b2c3d" :=
                 {| ChatEntry.messages := Some [happy];
                    ChatEntry.title :=
                      Some "I am so happy today! Everythin...";
                    ChatEntry.timestamp := Some "2024-01-01T13:00:05" |} ]};
          SessionManager.current_chat_id := Some "chat_20240101_130000_0a1b2c3d";
          SessionManager.messages := [happy] |};
     SessionManager.disk := empty_disk;
     SessionManager.ui := [] |}.

(** [format(x, '.1%')] on the one confidence the samples use. *)
Definition percent_1 : float -> string := fun _ => "75.0%".

(** A reply generator that answers every prompt. *)
Definition gemini : Gemini.model :=
  fun _ _ => Py.Return (Gemini.Text "I hear that you're anxious. Tell me more.").

(** A reply generator whose answer to the full prompt cannot be read and
    that answers the minimal prompt. *)
Definition gemini_blocked : Gemini.model :=
  fun _ generation_config =>
    match generation_config with
    | Some _ => Py.Return (Gemini.TextRaises Py.ValueError)
    | None => Py.Return (Gemini.Text "Could you say more about that?")
    end.

(** The single-user application, connected, in a new chat. *)
Definition app_world : App.world :=
  {| App.base :=
       {| Utils.st := {| Utils.chat_history := ∅;
                         Utils.current_chat_id := "chat_20240101_115800";
                         Utils.messages := [] |};
          Utils.disk := empty_disk;
          Utils.ui := [];
          Utils.classifier_log := [] |};
     App.gemini_model := Some gemini;
     App.api_connected := true;
     App.emotion_data := Some (Some classifier, Some "distilbert-emotion");
     App.gemini_log := [] |}.

(** The same application before any connection. *)
Definition app_world_offline : App.world :=
  {| App.base := App.base app_world;
     App.gemini_model := None;
     App.api_connected := false;
     App.emotion_data := Some (Some classifier, Some "distilbert-emotion");
     App.gemini_log := [] |}.

(** A hundred thousand opening brackets. *)
Definition deeply_nested : string :=
  N.iter 100000 (String "[") EmptyString.

(** The first run of the single-user application on a history file whose
    text nests deeper than the decoder recurses. *)
Definition first_run_nested : Connection.startup :=
  {| Connection.known_chat_history := None;
     Connection.known_current_chat_id := None;
     Connection.known_messages := None;
     Connection.known_gemini_model := None;
     Connection.known_api_connected := None;
     Connection.known_emotion_data := None;
     Connection.on_disk :=
       {| Fs.files := {[ Utils.CHAT_HISTORY_FILE := Fs.TooDeep deeply_nested ]};
          Fs.write_protected := ∅ |};
     Connection.shown := [];
     Connection.classifier_calls := [];
     Connection.gemini_calls := [] |}.




End Sample.

(** * Properties *)

(** ** Strings *)

Lemma append_nil (b : string) : EmptyString +:+ b = b.
Proof. reflexivity. Qed.

Lemma append_cons (c : ascii) (a b : string) :
  String c a +:+ b = String c (a +:+ b).
Proof. reflexivity. Qed.

Lemma string_cons_inj (c : ascii) (s s' : string) :
  String c s = String c s' -> s = s'.
Proof. now intros [= ->]. Qed.

Lemma rstrip_empty_iff (s : string) :
  Py.rstrip s = EmptyString <-> Py.all_chars Py.isspace s = true.
Proof.
  induction s as [|c s IH]; simpl; [tauto|].
  destruct (Py.rstrip s) eqn:E.
  - destruct (Py.isspace c); simpl.
    + rewrite <- IH. tauto.
    + split; discriminate.
  - split; [discriminate|].
    rewrite andb_true_iff. intros [_ H]. apply IH in H. discriminate.
Qed.

Lemma lstrip_all_space (s : string) :
  Py.all_chars Py.isspace s = true -> Py.lstrip s = EmptyString.
Proof.
  induction s as [|c s IH]; simpl; [reflexivity|].
  destruct (Py.isspace c); simpl; [exact IH|discriminate].
Qed.

Lemma lstrip_space_only (s : string) :
  Py.all_chars Py.isspace (Py.lstrip s) = true ->
  Py.all_chars Py.isspace s = true.
Proof.
  induction s as [|c s IH]; simpl; [reflexivity|].
  destruct (Py.isspace c) eqn:E; simpl.
  - exact IH.
  - rewrite E. simpl. discriminate.
Qed.

(** [text.strip()] is empty exactly when every character of [text] is
    whitespace. *)
Lemma strip_empty_iff (s : string) :
  Py.truthy (Py.strip s) = false <-> Py.all_chars Py.isspace s = true.
Proof.
  unfold Py.strip. split.
  - intros H. apply lstrip_space_only. apply rstrip_empty_iff.
    destruct (Py.rstrip (Py.lstrip s)); [reflexivity|discriminate].
  - intros H. rewrite (lstrip_all_space s H). reflexivity.
Qed.

(** The guard [not text or not text.strip()]. *)
Lemma blank_guard_iff (text : string) :
  negb (Py.truthy text) || negb (Py.truthy (Py.strip text)) = true
  <-> Py.all_chars Py.isspace text = true.
Proof.
  rewrite orb_true_iff, !negb_true_iff, strip_empty_iff.
  split; [|tauto].
  intros [H|H]; [|exact H]. destruct text; [reflexivity|discriminate].
Qed.

Lemma length_slice_to (n : nat) (s : string) :
  String.length (Py.slice_to n s) = Nat.min n (String.length s).
Proof.
  unfold Py.slice_to. revert s.
  induction n as [|n IH]; intros [|c s]; simpl; try reflexivity.
  now rewrite IH.
Qed.

(** [s[:n]] is a prefix of [s]. *)
Lemma slice_to_prefix (n : nat) (s : string) :
  exists rest, s = Py.slice_to n s +:+ rest.
Proof.
  unfold Py.slice_to. revert s.
  induction n as [|n IH]; intros [|c s]; simpl.
  - now exists EmptyString.
  - now exists (String c s).
  - now exists EmptyString.
  - destruct (IH s) as [rest Hrest]. exists rest.
    rewrite append_cons. now f_equal.
Qed.

Lemma slice_to_all (n : nat) (s : string) :
  (String.length s <= n)%nat -> Py.slice_to n s = s.
Proof.
  unfold Py.slice_to. revert s.
  induction n as [|n IH]; intros [|c s]; simpl; intros H;
    try reflexivity; try lia.
  rewrite IH; [reflexivity|lia].
Qed.

Lemma append_inj_length (a a' b b' : string) :
  String.length a = String.length a' ->
  a +:+ b = a' +:+ b' -> a = a' /\ b = b'.
Proof.
  revert a'. induction a as [|c a IH]; intros [|c' a']; simpl;
    intros Hlen Heq; try discriminate.
  - now split.
  - rewrite !append_cons in Heq.
    injection Heq as -> Heq. injection Hlen as Hlen.
    destruct (IH a' Hlen Heq) as [-> ->]. now split.
Qed.

(** ** Title derivation *)

(** C8: the title of an empty message list is "New Chat"; otherwise it is the
    first message's content, verbatim when it has at most 30 characters, and
    its first 30 characters followed by "..." when it has more. *)
Theorem get_chat_title_spec (messages : list Message.t) :
  (messages = [] -> Utils.get_chat_title messages = "New Chat") /\
  (forall first rest, messages = first :: rest ->
     let c := default EmptyString (Message.content first) in
     ((String.length c <= 30)%nat -> Utils.get_chat_title messages = c) /\
     ((30 < String.length c)%nat ->
        Utils.get_chat_title messages = Py.slice_to 30 c +:+ "..." /\
        String.length (Py.slice_to 30 c) = 30%nat /\
        exists tail, c = Py.slice_to 30 c +:+ tail)).
Proof.
  split.
  - intros ->. reflexivity.
  - intros first rest -> c. unfold Utils.get_chat_title. fold c. split.
    + intros H. destruct (Nat.ltb_spec 30 (String.length c)); [lia|reflexivity].
    + intros H. destruct (Nat.ltb_spec 30 (String.length c)); [|lia].
      split; [reflexivity|]. split.
      * rewrite length_slice_to. lia.
      * apply slice_to_prefix.
Qed.

Lemma get_chat_title_spec_witness :
  Utils.get_chat_title [] = "New Chat" /\
  Utils.get_chat_title [Sample.anxious; Sample.reply] = "I feel anxious" /\
  Utils.get_chat_title [Sample.long_message]
    = "AAAAAAAAAAAAAAAAAAAAAAAAAAAAAA...".
Proof.
  split; [exact (proj1 (get_chat_title_spec []) eq_refl)|].
  split.
  - apply (proj2 (get_chat_title_spec [Sample.anxious; Sample.reply])
             Sample.anxious [Sample.reply] eq_refl).
    simpl. lia.
  - apply (proj2 (get_chat_title_spec [Sample.long_message])
             Sample.long_message [] eq_refl).
    simpl. lia.
Defined.

(** ** Emotion annotation *)

Lemma emotion_to_intensity_range (e : string) (v : Z) :
  Utils.emotion_to_intensity !! e = Some v -> (1 <= v <= 5)%Z.
Proof.
  intros H. apply elem_of_list_to_map_2 in H.
  repeat (apply elem_of_cons in H as [H|H]; [injection H as -> ->; lia|]).
  inversion H.
Qed.

Lemma default_intensity_range (e : string) :
  (1 <= default 3%Z (Utils.emotion_to_intensity !! e) <= 5)%Z.
Proof.
  destruct (Utils.emotion_to_intensity !! e) as [v|] eqn:E; simpl; [|lia].
  exact (emotion_to_intensity_range e v E).
Qed.

Lemma analyze_emotion_try_blank (text : string) (p : pipeline)
    (mt : option string) (w : Utils.world) :
  Py.all_chars Py.isspace text = true ->
  Utils.analyze_emotion_try text p mt w =
    (Py.Return {| EmotionAnalysis.emotion := "neutral";
                  EmotionAnalysis.confidence := 0.5%float;
                  EmotionAnalysis.intensity := 3;
                  EmotionAnalysis.raw_results := None;
                  EmotionAnalysis.model_type := mt |}, w).
Proof.
  intros H. unfold Utils.analyze_emotion_try.
  apply blank_guard_iff in H. now rewrite H.
Qed.

Lemma analyze_emotion_try_text (text : string) (p : pipeline)
    (mt : option string) (w : Utils.world) :
  Py.all_chars Py.isspace text = false ->
  snd (Utils.analyze_emotion_try text p mt w) =
    Utils.call_classifier (Py.slice_to 512 text) w /\
  fst (Utils.analyze_emotion_try text p mt w) =
    Py.bind (p (Py.slice_to 512 text)) (fun results =>
    Py.bind (Utils.max_by_score (Utils.unwrap_results results)) (fun best =>
    Py.Return
      {| EmotionAnalysis.emotion := Py.lower (label best);
         EmotionAnalysis.confidence := score best;
         EmotionAnalysis.intensity :=
           default 3%Z (Utils.emotion_to_intensity !! Py.lower (label best));
         EmotionAnalysis.raw_results := Some (Utils.unwrap_results results);
         EmotionAnalysis.model_type := mt |})).
Proof.
  intros H. unfold Utils.analyze_emotion_try.
  destruct (negb (Py.truthy text) || negb (Py.truthy (Py.strip text))) eqn:G.
  - apply blank_guard_iff in G. congruence.
  - split; reflexivity.
Qed.



(** C10: whatever the text and whatever the classifier does (model not
    available, classifier raising, classifier returning), [analyze_emotion]
    returns without raising a result carrying emotion, confidence, intensity
    and model type, with the intensity between 1 and 5; without a model and
    after a classifier failure the result is the neutral one. *)
Theorem analyze_emotion_never_raises
    (text : string) (data : option (option pipeline * option string))
    (w : Utils.world) :
  exists (a : EmotionAnalysis.t) (w' : Utils.world),
    Utils.analyze_emotion text data w = (Py.Return a, w') /\
    (1 <= EmotionAnalysis.intensity a <= 5)%Z /\
    (forall mt, data = None \/ data = Some (None, mt) ->
       a = {| EmotionAnalysis.emotion := "neutral";
              EmotionAnalysis.confidence := 0%float;
              EmotionAnalysis.intensity := 3;
              EmotionAnalysis.raw_results := None;
              EmotionAnalysis.model_type := Some "none" |}) /\
    (forall p mt e,
       data = Some (Some p, mt) ->
       Py.all_chars Py.isspace text = false ->
       p (Py.slice_to 512 text) = Py.Raise e ->
       a = {| EmotionAnalysis.emotion := "neutral";
              EmotionAnalysis.confidence := 0%float;
              EmotionAnalysis.intensity := 3;
              EmotionAnalysis.raw_results := None;
              EmotionAnalysis.model_type := mt |}).
Proof.
  unfold Utils.analyze_emotion.
  destruct data as [[[p|] mt]|].
  - destruct (Py.all_chars Py.isspace text) eqn:Hblank.
    + rewrite (analyze_emotion_try_blank text p mt w Hblank).
      eexists _, _. split; [reflexivity|]. simpl. split; [lia|].
      split; [intros mt' [?|?]; discriminate|].
      intros ? ? ? _ ?; discriminate.
    + destruct (analyze_emotion_try_text text p mt w Hblank) as [_ Hr].
      destruct (Utils.analyze_emotion_try text p mt w) as [r w'].
      simpl in Hr. subst r.
      destruct (p (Py.slice_to 512 text)) as [results|e] eqn:Hp; simpl.
      * destruct (Utils.max_by_score (Utils.unwrap_results results))
          as [best|e]; simpl.
        -- eexists _, _. split; [reflexivity|]. simpl.
           split; [apply default_intensity_range|].
           split; [intros mt' [?|?]; discriminate|].
           intros p' mt' e' Hd _ Hp'. injection Hd as <- <-. congruence.
        -- eexists _, _. split; [reflexivity|]. simpl. split; [lia|].
           split; [intros mt' [?|?]; discriminate|].
           intros p' mt' e' Hd _ _. now injection Hd as <- <-.
      * eexists _, _. split; [reflexivity|]. simpl. split; [lia|].
        split; [intros mt' [?|?]; discriminate|].
        intros p' mt' e' Hd _ _. now injection Hd as <- <-.
  - eexists _, _. split; [reflexivity|]. simpl. split; [lia|].
    split; [reflexivity|]. intros ? ? ? ?; discriminate.
  - eexists _, _. split; [reflexivity|]. simpl. split; [lia|].
    split; [reflexivity|]. intros ? ? ? ?; discriminate.
Qed.

Lemma analyze_emotion_never_raises_witness :
  exists w',
    Utils.analyze_emotion "I feel anxious"
      (Some (Some Sample.broken_classifier, Some "distilbert-emotion"))
      Sample.utils_world
    = (Py.Return {| EmotionAnalysis.emotion := "neutral";
                    EmotionAnalysis.confidence := 0%float;
                    EmotionAnalysis.intensity := 3;
                    EmotionAnalysis.raw_results := None;
                    EmotionAnalysis.model_type := Some "distilbert-emotion" |},
       w').
Proof.
  destruct (analyze_emotion_never_raises "I feel anxious"
              (Some (Some Sample.broken_classifier, Some "distilbert-emotion"))
              Sample.utils_world) as (a & w' & Hrun & _ & _ & Hraise).
  exists w'. rewrite Hrun. f_equal. f_equal.
  apply (Hraise Sample.broken_classifier (Some "distilbert-emotion")
           (Py.RuntimeError "CUDA out of memory")); reflexivity.
Defined.

(** ** Timestamps and chat identifiers *)

Lemma digit_inj (n m : N) :
  Datetime.digit n = Datetime.digit m -> (n mod 10 = m mod 10)%N.
Proof.
  unfold Datetime.digit. intros H.
  apply (f_equal N_of_ascii) in H.
  assert (n mod 10 < 10)%N by (apply N.mod_upper_bound; discriminate).
  assert (m mod 10 < 10)%N by (apply N.mod_upper_bound; discriminate).
  rewrite !N_ascii_embedding in H; lia.
Qed.

Lemma length_zero_padded (w : nat) (n : N) (acc : string) :
  String.length (Datetime.zero_padded w n acc) = (w + String.length acc)%nat.
Proof.
  revert n acc. induction w as [|w IH]; intros n acc; simpl; [reflexivity|].
  rewrite IH. simpl. lia.
Qed.

(** Fields below [10^w] are recovered from their [w] digits. *)
Lemma zero_padded_inj (w : nat) (n m : N) (acc acc' : string) :
  (n < 10 ^ N.of_nat w)%N -> (m < 10 ^ N.of_nat w)%N ->
  String.length acc = String.length acc' ->
  Datetime.zero_padded w n acc = Datetime.zero_padded w m acc' ->
  n = m /\ acc = acc'.
Proof.
  revert n m acc acc'. induction w as [|w IH]; intros n m acc acc' Hn Hm Hlen H.
  - simpl in *. split; [lia|exact H].
  - rewrite Nat2N.inj_succ, N.pow_succ_r' in Hn, Hm. simpl in H.
    apply IH in H;
      [| now apply N.Div0.div_lt_upper_bound ..| simpl; now rewrite Hlen].
    destruct H as [Hdiv Hacc]. injection Hacc as Hdig ->.
    apply digit_inj in Hdig. split; [|reflexivity].
    rewrite (N.div_mod n 10), (N.div_mod m 10) by discriminate.
    now rewrite Hdiv, Hdig.
Qed.

Lemma length_strftime (d : Datetime.t) :
  String.length (Datetime.strftime_Ymd_HMS d) = 15%nat.
Proof.
  unfold Datetime.strftime_Ymd_HMS.
  repeat (rewrite length_zero_padded; simpl). reflexivity.
Qed.

(** [strftime('%Y%m%d_%H%M%S')] separates exactly the instants that lie in
    different seconds. *)
Lemma strftime_eq_iff (a b : Datetime.t) :
  Datetime.valid a -> Datetime.valid b ->
  Datetime.strftime_Ymd_HMS a = Datetime.strftime_Ymd_HMS b
  <-> Datetime.same_second a b.
Proof.
  intros (Hy & Hmo & Hd & Hh & Hmi & Hs & _) (Hy' & Hmo' & Hd' & Hh' & Hmi' & Hs' & _).
  unfold Datetime.same_second. split.
  - unfold Datetime.strftime_Ymd_HMS. intros H.
    apply zero_padded_inj in H as [Ey H];
      [| change (10 ^ N.of_nat 4)%N with 10000%N; lia ..
       | repeat (rewrite length_zero_padded; simpl); reflexivity].
    apply zero_padded_inj in H as [Emo H];
      [| change (10 ^ N.of_nat 2)%N with 100%N; lia ..
       | repeat (rewrite length_zero_padded; simpl); reflexivity].
    apply zero_padded_inj in H as [Ed H];
      [| change (10 ^ N.of_nat 2)%N with 100%N; lia ..
       | repeat (rewrite length_zero_padded; simpl); reflexivity].
    apply string_cons_inj in H.
    apply zero_padded_inj in H as [Eh H];
      [| change (10 ^ N.of_nat 2)%N with 100%N; lia ..
       | repeat (rewrite length_zero_padded; simpl); reflexivity].
    apply zero_padded_inj in H as [Emi H];
      [| change (10 ^ N.of_nat 2)%N with 100%N; lia ..
       | repeat (rewrite length_zero_padded; simpl); reflexivity].
    apply zero_padded_inj in H as [Es _];
      [| change (10 ^ N.of_nat 2)%N with 100%N; lia ..
       | reflexivity].
    tauto.
  - intros (Ey & Emo & Ed & Eh & Emi & Es).
    unfold Datetime.strftime_Ymd_HMS. now rewrite Ey, Emo, Ed, Eh, Emi, Es.
Qed.

(** The identifier [create_new_chat] of [utils.py] builds depends on the
    second of its creation only. *)
Lemma utils_create_new_chat_eq_iff (d1 d2 : Datetime.t) :
  Datetime.valid d1 -> Datetime.valid d2 ->
  Utils.create_new_chat d1 = Utils.create_new_chat d2
  <-> Datetime.same_second d1 d2.
Proof.
  intros H1 H2. rewrite <- (strftime_eq_iff d1 d2 H1 H2).
  unfold Utils.create_new_chat. split; [|now intros ->].
  intros H. now apply append_inj_length in H as [_ H].
Qed.

Lemma session_manager_chat_id_eq_iff (d1 d2 : Datetime.t) (s1 s2 : string) :
  Datetime.valid d1 -> Datetime.valid d2 ->
  "chat_" +:+ Datetime.strftime_Ymd_HMS d1 +:+ "_" +:+ s1 =
  "chat_" +:+ Datetime.strftime_Ymd_HMS d2 +:+ "_" +:+ s2
  <-> Datetime.same_second d1 d2 /\ s1 = s2.
Proof.
  intros H1 H2. rewrite <- (strftime_eq_iff d1 d2 H1 H2). split.
  - intros H. apply append_inj_length in H as [_ H]; [|reflexivity].
    apply append_inj_length in H as [Hts H]; [|now rewrite !length_strftime].
    apply append_inj_length in H as [_ H]; [|reflexivity].
    now split.
  - now intros [-> ->].
Qed.

(** C3, as stated, fails: [create_new_chat] of [utils.py] appends no random
    suffix and gives two sessions created half a second apart the same
    identifier; the session manager's does so too when the two random
    draws agree on their first eight hexadecimal digits. *)
Lemma chat_id_collision :
  Sample.noon <> Sample.noon_and_a_half /\
  Utils.create_new_chat Sample.noon =
    Utils.create_new_chat Sample.noon_and_a_half /\
  Sample.uuid_a <> Sample.uuid_b /\
  (forall w : SessionManager.world,
     fst (SessionManager.create_new_chat Sample.noon Sample.uuid_a w) =
     fst (SessionManager.create_new_chat Sample.noon_and_a_half Sample.uuid_b w)).
Proof.
  split; [discriminate|]. split; [reflexivity|].
  split; [discriminate|]. intros w. reflexivity.
Qed.

(** C3, amended: the session manager builds a chat identifier from the
    creation time, to the second, and the first eight hexadecimal digits of
    a random UUID, and makes it the current one with an empty message list;
    two identifiers are equal exactly when the creation times lie in the
    same second and the eight-digit suffixes coincide. *)
Theorem session_manager_chat_id_distinct
    (d1 d2 : Datetime.t) (h1 h2 : string) (w1 w2 : SessionManager.world) :
  Datetime.valid d1 -> Datetime.valid d2 ->
  let (id1, w1') := SessionManager.create_new_chat d1 h1 w1 in
  let (id2, w2') := SessionManager.create_new_chat d2 h2 w2 in
  id1 = "chat_" +:+ Datetime.strftime_Ymd_HMS d1 +:+ "_" +:+ Py.slice_to 8 h1 /\
  SessionManager.current_chat_id (SessionManager.st w1') = Some id1 /\
  SessionManager.messages (SessionManager.st w1') = [] /\
  (id1 = id2 <->
   Datetime.same_second d1 d2 /\ Py.slice_to 8 h1 = Py.slice_to 8 h2).
Proof.
  intros H1 H2. simpl. split; [reflexivity|]. split; [reflexivity|].
  split; [reflexivity|]. now apply session_manager_chat_id_eq_iff.
Qed.

Lemma session_manager_chat_id_distinct_witness :
  Datetime.valid Sample.noon /\ Datetime.valid Sample.one_pm /\
  forall w : SessionManager.world,
    fst (SessionManager.create_new_chat Sample.noon Sample.uuid_a w) <>
    fst (SessionManager.create_new_chat Sample.one_pm Sample.uuid_c w).
Proof.
  assert (V1 : Datetime.valid Sample.noon) by (unfold Datetime.valid; simpl; lia).
  assert (V2 : Datetime.valid Sample.one_pm) by (unfold Datetime.valid; simpl; lia).
  split; [exact V1|]. split; [exact V2|]. intros w.
  pose proof (session_manager_chat_id_distinct
                Sample.noon Sample.one_pm Sample.uuid_a Sample.uuid_c w w V1 V2)
    as H.
  destruct (SessionManager.create_new_chat Sample.noon Sample.uuid_a w)
    as [id1 w1'] eqn:E1.
  destruct (SessionManager.create_new_chat Sample.one_pm Sample.uuid_c w)
    as [id2 w2'] eqn:E2.
  destruct H as (_ & _ & _ & H). simpl. intros Heq.
  apply H in Heq as [_ Hs]. discriminate Hs.
Defined.

(** ** The chat-history store *)

(** Writing is refused on the write-protected paths and on the files that
    cannot be opened, and on no other. *)
Lemma elem_of_readonly {D : Type} (fs : Fs.t D) (path : string) :
  path ∈ Fs.readonly fs <->
  path ∈ Fs.write_protected fs \/ Fs.files fs !! path = Some Fs.Denied.
Proof.
  unfold Fs.readonly. rewrite elem_of_union, elem_of_dom.
  split; (intros [H|H]; [now left|right]).
  - destruct H as [f Hf]. apply map_lookup_filter_Some in Hf as [Hf Hd].
    simpl in Hd. now destruct f.
  - exists Fs.Denied. now apply map_lookup_filter_Some.
Qed.

Lemma writable_path {D : Type} (fs : Fs.t D) (path : string) :
  path ∉ Fs.write_protected fs ->
  match Fs.files fs !! path with
  | Some f => Fs.is_denied f
  | None => false
  end = false ->
  path ∉ Fs.readonly fs.
Proof.
  intros Hwp Hfile. rewrite elem_of_readonly. intros [H|H]; [contradiction|].
  now rewrite H in Hfile.
Qed.

Ltac sample_writable :=
  apply writable_path; [simpl; apply not_elem_of_empty|reflexivity].

(** A successful write leaves the refused paths as they were. *)
Lemma readonly_written {D : Type} (fs : Fs.t D) (path : string) (doc : D) :
  path ∉ Fs.readonly fs ->
  Fs.readonly {| Fs.files := <[path := Fs.Json doc]> (Fs.files fs);
                 Fs.write_protected := Fs.write_protected fs |}
  = Fs.readonly fs.
Proof.
  intros H. apply set_eq. intros q. rewrite !elem_of_readonly. simpl.
  destruct (decide (q = path)) as [->|Hq].
  - rewrite lookup_insert_eq. split; (intros [Hq|Hq]; [now left|]).
    + discriminate.
    + exfalso. apply H, elem_of_readonly. now right.
  - now rewrite lookup_insert_ne.
Qed.

Lemma json_dump_writable {D : Type} (fs : Fs.t D) (path : string) (doc : D) :
  path ∉ Fs.readonly fs ->
  Fs.json_dump fs path doc =
    Py.Return {| Fs.files := <[path := Fs.Json doc]> (Fs.files fs);
                 Fs.write_protected := Fs.write_protected fs |}.
Proof. intros H. unfold Fs.json_dump. now rewrite decide_False. Qed.

Lemma json_dump_readonly {D : Type} (fs : Fs.t D) (path : string) (doc : D) :
  path ∈ Fs.readonly fs ->
  Fs.json_dump fs path doc = Py.Raise Py.PermissionError.
Proof. intros H. unfold Fs.json_dump. now rewrite decide_True. Qed.

(** What [save_chat_history] of [utils.py] leaves on disk. *)
Lemma utils_save_writable (M : gmap string ChatEntry.t) (w : Utils.world) :
  Utils.CHAT_HISTORY_FILE ∉ Fs.readonly (Utils.disk w) ->
  Utils.save_chat_history M w =
    Utils.set_disk
      {| Fs.files := <[Utils.CHAT_HISTORY_FILE := Fs.Json M]>
                       (Fs.files (Utils.disk w));
         Fs.write_protected := Fs.write_protected (Utils.disk w) |} w.
Proof.
  intros H. unfold Utils.save_chat_history. now rewrite json_dump_writable.
Qed.

Lemma utils_save_readonly (M : gmap string ChatEntry.t) (w : Utils.world) :
  Utils.CHAT_HISTORY_FILE ∈ Fs.readonly (Utils.disk w) ->
  Utils.save_chat_history M w =
    Utils.notify St.error "Could not save chat history: "
      (Some Py.PermissionError) w.
Proof.
  intros H. unfold Utils.save_chat_history. now rewrite json_dump_readonly.
Qed.

Lemma utils_save_st (M : gmap string ChatEntry.t) (w : Utils.world) :
  Utils.st (Utils.save_chat_history M w) = Utils.st w.
Proof.
  unfold Utils.save_chat_history.
  now destruct (Fs.json_dump (Utils.disk w) Utils.CHAT_HISTORY_FILE M).
Qed.

(** The document the session manager finds on disk before it merges:
    the empty one when the file is absent. *)
Lemma session_manager_save_merges (w : SessionManager.world)
    (d : gmap string (gmap string ChatEntry.t)) :
  Fs.files (SessionManager.disk w) !! SessionManager.chat_history_path
    = Some (Fs.Json d)
  \/ (Fs.files (SessionManager.disk w) !! SessionManager.chat_history_path = None
      /\ d = ∅) ->
  SessionManager.chat_history_path ∉ Fs.readonly (SessionManager.disk w) ->
  SessionManager.save_chat_history w =
    SessionManager.set_disk
      {| Fs.files :=
           <[SessionManager.chat_history_path :=
               Fs.Json (<[SessionManager.user_id (SessionManager.st w) :=
                            SessionManager.chat_history (SessionManager.st w)]> d)]>
             (Fs.files (SessionManager.disk w));
         Fs.write_protected := Fs.write_protected (SessionManager.disk w) |} w.
Proof.
  intros Hdoc Hrw. unfold SessionManager.save_chat_history, Fs.exists_, Fs.json_load.
  destruct Hdoc as [Hdoc|[Hdoc ->]]; rewrite Hdoc; simpl;
    now rewrite json_dump_writable.
Qed.

(** A file that is there and that [json.load] raises on makes the session
    manager's save give up, whatever the exception: nothing is written. *)
Lemma session_manager_save_unloadable (w : SessionManager.world) (e : Py.exn) :
  Fs.exists_ (SessionManager.disk w) SessionManager.chat_history_path = true ->
  Fs.json_load (SessionManager.disk w) SessionManager.chat_history_path
    = Py.Raise e ->
  SessionManager.save_chat_history w =
    SessionManager.notify St.warning "Could not save chat history" None w.
Proof.
  intros Hex Hload. unfold SessionManager.save_chat_history.
  now rewrite Hex, Hload.
Qed.

(** The session manager's load of the chat history gives up in the same
    way: session and disk stay as they were. *)
Lemma session_manager_load_unloadable (w : SessionManager.world) (e : Py.exn) :
  Fs.json_load (SessionManager.disk w) SessionManager.chat_history_path
    = Py.Raise e ->
  SessionManager._load_persisted_data w = w.
Proof.
  intros Hload. unfold SessionManager._load_persisted_data.
  rewrite Hload. now destruct (Fs.exists_ _ _).
Qed.

(** A corrupt document makes the session manager's save give up: nothing
    is written. *)
Lemma session_manager_save_corrupt (w : SessionManager.world) (raw : string) :
  Fs.files (SessionManager.disk w) !! SessionManager.chat_history_path
    = Some (Fs.Malformed raw)
  \/ Fs.files (SessionManager.disk w) !! SessionManager.chat_history_path
    = Some (Fs.Undecodable raw) ->
  SessionManager.save_chat_history w =
    SessionManager.notify St.warning "Could not save chat history" None w.
Proof.
  intros H. unfold SessionManager.save_chat_history, Fs.exists_, Fs.json_load.
  destruct H as [H|H]; now rewrite H.
Qed.



(** C5: when the multi-user file can be written and the document [d] on
    disk parses ([d] empty when there is no file yet), the document after a
    save maps the current user to the current chat history and every other
    user to the entry [d] had for it; the session itself is untouched. *)
Theorem save_chat_history_read_merge_write
    (w : SessionManager.world) (d : gmap string (gmap string ChatEntry.t)) :
  Fs.files (SessionManager.disk w) !! SessionManager.chat_history_path
    = Some (Fs.Json d)
  \/ (Fs.files (SessionManager.disk w) !! SessionManager.chat_history_path = None
      /\ d = ∅) ->
  SessionManager.chat_history_path ∉ Fs.readonly (SessionManager.disk w) ->
  exists d',
    Fs.files (SessionManager.disk (SessionManager.save_chat_history w))
      !! SessionManager.chat_history_path = Some (Fs.Json d') /\
    d' !! SessionManager.user_id (SessionManager.st w)
      = Some (SessionManager.chat_history (SessionManager.st w)) /\
    (forall u, u <> SessionManager.user_id (SessionManager.st w) ->
       d' !! u = d !! u) /\
    SessionManager.st (SessionManager.save_chat_history w) = SessionManager.st w.
Proof.
  intros Hdoc Hrw. rewrite (session_manager_save_merges w d Hdoc Hrw). simpl.
  eexists. split; [apply lookup_insert_eq|].
  split; [apply lookup_insert_eq|]. split; [|reflexivity].
  intros u Hu. now apply lookup_insert_ne.
Qed.


Lemma save_chat_history_read_merge_write_witness :
  exists d',
    Fs.files (SessionManager.disk
                (SessionManager.save_chat_history Sample.manager_world))
      !! SessionManager.chat_history_path = Some (Fs.Json d') /\
    d' !! "user_00000000000000aa" = Some Sample.manager_history /\
    d' !! "user_00000000000000bb"
      = Some {[ "chat_20231231_090000_7f3e2d1c" := Sample.chat ]}.
Proof.
  destruct (save_chat_history_read_merge_write
              Sample.manager_world Sample.document_b)
    as (d' & Hfile & Hme & Hothers & _).
  - left. reflexivity.
  - sample_writable.
  - exists d'. split; [exact Hfile|]. split; [exact Hme|].
    rewrite Hothers by discriminate. reflexivity.
Defined.

(** ** Loading a corrupt history file *)

Lemma backup_name_distinct (ts : string) :
  "chat_history_backup_" +:+ ts +:+ ".json" <> Utils.CHAT_HISTORY_FILE.
Proof. unfold Utils.CHAT_HISTORY_FILE. rewrite !append_cons. discriminate. Qed.

(** C2, as stated, fails: the session manager's load swallows the parse
    error of a corrupt history file and writes no backup; the corrupt file
    stays where it was and no other path exists afterwards. *)
Lemma session_manager_load_makes_no_backup :
  Fs.json_load (SessionManager.disk Sample.manager_world_corrupt)
    SessionManager.chat_history_path = Py.Raise Py.JSONDecodeError /\
  forall path,
    path <> SessionManager.chat_history_path ->
    Fs.files (SessionManager.disk
                (SessionManager._load_persisted_data
                   Sample.manager_world_corrupt)) !! path = None.
Proof.
  split; [reflexivity|]. intros path Hpath.
  change (SessionManager._load_persisted_data Sample.manager_world_corrupt)
    with Sample.manager_world_corrupt.
  simpl. now apply lookup_singleton_ne.
Qed.

(** An exception of [open] or [json.load] that the [except] clause of
    [load_chat_history] does not name escapes from it: nothing is renamed
    and nothing is reported. *)
Lemma load_chat_history_escapes (now : Datetime.t) (w : Utils.world)
    (e : Py.exn) :
  Fs.exists_ (Utils.disk w) Utils.CHAT_HISTORY_FILE = true ->
  Fs.json_load (Utils.disk w) Utils.CHAT_HISTORY_FILE = Py.Raise e ->
  Utils.is_decode_error e = false ->
  Utils.load_chat_history now w = (Py.Raise e, w).
Proof.
  intros Hex Hload He. unfold Utils.load_chat_history.
  now rewrite Hex, Hload, He.
Qed.

(** C2, amended: when [json.load] raises [JSONDecodeError] or
    [UnicodeDecodeError] on the history file of the single-user store,
    [load_chat_history] does not raise and returns the empty mapping; if the
    rename is permitted, the file is moved to
    [chat_history_backup_<YYYYMMDD_HHMMSS>.json], a path distinct from the
    original that then holds the original bytes, the original path no longer
    existing and every other file kept; if the rename is refused, the disk
    is left as it was. The session manager's load raises on no file,
    whatever the exception (a subclass of [Exception]) of [open] or
    [json.load], and then changes nothing: neither the session nor the disk,
    so it makes no backup. *)
Theorem load_corrupt_history :
  (forall (now : Datetime.t) (w : Utils.world) (e : Py.exn)
          (f : Fs.file (gmap string ChatEntry.t)),
     Fs.files (Utils.disk w) !! Utils.CHAT_HISTORY_FILE = Some f ->
     Fs.json_load (Utils.disk w) Utils.CHAT_HISTORY_FILE = Py.Raise e ->
     e = Py.JSONDecodeError \/ e = Py.UnicodeDecodeError ->
     let backup_name :=
       "chat_history_backup_" +:+ Datetime.strftime_Ymd_HMS now +:+ ".json" in
     let out := Utils.load_chat_history now w in
     fst out = Py.Return ∅ /\
     Utils.st (snd out) = Utils.st w /\
     backup_name <> Utils.CHAT_HISTORY_FILE /\
     if decide (Utils.CHAT_HISTORY_FILE ∈ Fs.readonly (Utils.disk w)
                \/ backup_name ∈ Fs.readonly (Utils.disk w))
     then Utils.disk (snd out) = Utils.disk w
     else
       Fs.files (Utils.disk (snd out)) !! backup_name = Some f /\
       Fs.files (Utils.disk (snd out)) !! Utils.CHAT_HISTORY_FILE = None /\
       forall path, path <> backup_name -> path <> Utils.CHAT_HISTORY_FILE ->
         Fs.files (Utils.disk (snd out)) !! path
           = Fs.files (Utils.disk w) !! path) /\
  (forall (w : SessionManager.world) (e : Py.exn),
     Fs.json_load (SessionManager.disk w) SessionManager.chat_history_path
       = Py.Raise e ->
     SessionManager._load_persisted_data w = w).
Proof.
  split.
  - intros now w e f Hfile Hload He backup_name out. subst out.
    assert (Hne : backup_name <> Utils.CHAT_HISTORY_FILE)
      by apply backup_name_distinct.
    assert (Hdec : Utils.is_decode_error e = true)
      by (now destruct He as [-> | ->]).
    unfold Utils.load_chat_history, Fs.exists_. rewrite Hload, Hfile, Hdec.
    unfold Fs.rename. simpl. rewrite Hfile. fold backup_name.
    destruct (decide (Utils.CHAT_HISTORY_FILE ∈ Fs.readonly (Utils.disk w)
                      \/ backup_name ∈ Fs.readonly (Utils.disk w))); simpl.
    + repeat split. exact Hne.
    + repeat split.
      * exact Hne.
      * apply lookup_insert_eq.
      * rewrite lookup_insert_ne by exact Hne. apply lookup_delete_eq.
      * intros path H1 H2. rewrite lookup_insert_ne by congruence.
        now rewrite lookup_delete_ne by congruence.
  - intros w e. apply session_manager_load_unloadable.
Qed.

Lemma load_corrupt_history_witness :
  let out := Utils.load_chat_history Sample.noon Sample.utils_world_corrupt in
  fst out = Py.Return ∅ /\
  Fs.files (Utils.disk (snd out)) !! "chat_history_backup_20240101_120000.json"
    = Some (Fs.Malformed "{chat_1: [truncated") /\
  Fs.files (Utils.disk (snd out)) !! "chat_history.json" = None /\
  SessionManager._load_persisted_data Sample.manager_world_corrupt
    = Sample.manager_world_corrupt.
Proof.
  destruct (proj1 load_corrupt_history Sample.noon Sample.utils_world_corrupt
              Py.JSONDecodeError (Fs.Malformed "{chat_1: [truncated"))
    as (Hr & _ & _ & Hdisk).
  - reflexivity.
  - reflexivity.
  - left. reflexivity.
  - rewrite decide_False in Hdisk.
    + destruct Hdisk as (Hb & Ho & _).
      split; [exact Hr|]. split; [exact Hb|]. split; [exact Ho|].
      apply (proj2 load_corrupt_history Sample.manager_world_corrupt
               Py.JSONDecodeError).
      reflexivity.
    + intros [H|H]; revert H; sample_writable.
Defined.

(** ** Switching and deleting chats *)

(** C7: switching to a chat identifier that is not in the chat history
    changes neither the active session ([current_chat_id], [messages], the
    history itself) nor the disk; it returns normally after reporting
    "Chat not found" as a warning. *)
Theorem switch_chat_not_found (chat_id : string) (w : SessionManager.world) :
  SessionManager.chat_history (SessionManager.st w) !! chat_id = None ->
  let w' := SessionManager.switch_chat chat_id w in
  SessionManager.current_chat_id (SessionManager.st w')
    = SessionManager.current_chat_id (SessionManager.st w) /\
  SessionManager.messages (SessionManager.st w')
    = SessionManager.messages (SessionManager.st w) /\
  SessionManager.st w' = SessionManager.st w /\
  SessionManager.disk w' = SessionManager.disk w /\
  SessionManager.ui w' =
    SessionManager.ui w ++
      [ {| St.lvl := St.warning; St.text := "Chat not found";
           St.cause := None |} ].
Proof.
  intros H. unfold SessionManager.switch_chat. rewrite H. simpl.
  repeat split; reflexivity.
Qed.

Lemma switch_chat_not_found_witness :
  let w' := SessionManager.switch_chat "nonexistent_id" Sample.manager_world in
  SessionManager.current_chat_id (SessionManager.st w')
    = Some "chat_20240101_120000_0a1b2c3d" /\
  SessionManager.messages (SessionManager.st w') = [Sample.happy] /\
  SessionManager.ui w' =
    [ {| St.lvl := St.warning; St.text := "Chat not found"; St.cause := None |} ].
Proof.
  destruct (switch_chat_not_found "nonexistent_id" Sample.manager_world)
    as (Hid & Hmsgs & _ & _ & Hui).
  - reflexivity.
  - split; [exact Hid|]. split; [exact Hmsgs|exact Hui].
Defined.

(** [switch_chat] never touches the chat history or the disk. *)
Lemma switch_chat_frame (chat_id : string) (w : SessionManager.world) :
  SessionManager.chat_history (SessionManager.st (SessionManager.switch_chat chat_id w))
    = SessionManager.chat_history (SessionManager.st w) /\
  SessionManager.disk (SessionManager.switch_chat chat_id w)
    = SessionManager.disk w.
Proof.
  unfold SessionManager.switch_chat.
  destruct (SessionManager.chat_history (SessionManager.st w) !! chat_id);
    split; reflexivity.
Qed.

(** Deleting an identifier that is not in the history does nothing. *)
Lemma delete_chat_absent (chat_id : string) (now : Datetime.t)
    (uuid_hex : string) (w : SessionManager.world) :
  SessionManager.chat_history (SessionManager.st w) !! chat_id = None ->
  SessionManager.delete_chat chat_id now uuid_hex w = w.
Proof. intros H. unfold SessionManager.delete_chat. now rewrite H. Qed.

Lemma session_manager_save_st (w : SessionManager.world) :
  SessionManager.st (SessionManager.save_chat_history w) = SessionManager.st w.
Proof.
  unfold SessionManager.save_chat_history.
  match goal with |- context [match ?a with _ => _ end] => destruct a end;
    reflexivity.
Qed.

(** Deleting the active chat when it is in the history. *)
Lemma delete_chat_active (chat_id : string) (now : Datetime.t)
    (uuid_hex : string) (w : SessionManager.world) :
  SessionManager.current_chat_id (SessionManager.st w) = Some chat_id ->
  is_Some (SessionManager.chat_history (SessionManager.st w) !! chat_id) ->
  SessionManager.delete_chat chat_id now uuid_hex w =
    SessionManager.save_chat_history
      (SessionManager.set_st
         {| SessionManager.user_id := SessionManager.user_id (SessionManager.st w);
            SessionManager.chat_history :=
              delete chat_id (SessionManager.chat_history (SessionManager.st w));
            SessionManager.current_chat_id :=
              Some (fst (SessionManager.create_new_chat now uuid_hex w));
            SessionManager.messages := [] |} w).
Proof.
  intros Hcur [entry Hentry]. unfold SessionManager.delete_chat.
  rewrite Hentry. simpl. rewrite Hcur.
  rewrite decide_True by reflexivity. reflexivity.
Qed.

(** C6, as stated, fails: the session manager deletes only what is in the
    history, so deleting the active chat while it is not archived leaves the
    active session with its identifier and its messages, and writes nothing;
    and in the single-user application the identifier that replaces a
    deleted active chat is the deleted one again when the deletion happens
    in the second the chat was created in. *)
Lemma delete_active_chat_counterexample :
  (let w' := SessionManager.delete_chat "chat_20240101_120000_0a1b2c3d"
               Sample.one_pm Sample.uuid_c Sample.manager_world in
   SessionManager.current_chat_id (SessionManager.st Sample.manager_world)
     = Some "chat_20240101_120000_0a1b2c3d" /\
   SessionManager.current_chat_id (SessionManager.st w')
     = Some "chat_20240101_120000_0a1b2c3d" /\
   SessionManager.messages (SessionManager.st w') = [Sample.happy] /\
   SessionManager.disk w' = SessionManager.disk Sample.manager_world) /\
  (let out := Sidebar.render_chat_item_delete "chat_20240101_115800"
                Sample.two_to_noon Sample.utils_world_archived in
   Utils.current_chat_id (Utils.st Sample.utils_world_archived)
     = "chat_20240101_115800" /\
   fst out = Py.Return tt /\
   Utils.current_chat_id (Utils.st (snd out)) = "chat_20240101_115800").
Proof. repeat split. Qed.

(** C6, amended: when the deleted identifier is the active one and is
    present in the chat history, delete removes the entry, empties the
    message list and installs a freshly generated identifier, which differs
    from the deleted one whenever that one was generated in another second
    or, in the session manager, with another random suffix; the updated
    history is on disk afterwards whenever the file can be written and, in
    the multi-user store, the document already there parses. In the session
    manager, deleting an identifier absent from the history, the active one
    included, changes nothing. *)
Theorem delete_active_chat :
  (forall (chat_id : string) (now : Datetime.t) (uuid_hex : string)
          (w : SessionManager.world),
     SessionManager.current_chat_id (SessionManager.st w) = Some chat_id ->
     is_Some (SessionManager.chat_history (SessionManager.st w) !! chat_id) ->
     let new_id := fst (SessionManager.create_new_chat now uuid_hex w) in
     let w' := SessionManager.delete_chat chat_id now uuid_hex w in
     SessionManager.chat_history (SessionManager.st w')
       = delete chat_id (SessionManager.chat_history (SessionManager.st w)) /\
     SessionManager.chat_history (SessionManager.st w') !! chat_id = None /\
     SessionManager.messages (SessionManager.st w') = [] /\
     SessionManager.current_chat_id (SessionManager.st w') = Some new_id /\
     (forall d0 h0,
        Datetime.valid d0 -> Datetime.valid now ->
        chat_id = fst (SessionManager.create_new_chat d0 h0 w) ->
        ~ (Datetime.same_second d0 now
           /\ Py.slice_to 8 h0 = Py.slice_to 8 uuid_hex) ->
        new_id <> chat_id) /\
     (forall d,
        Fs.files (SessionManager.disk w) !! SessionManager.chat_history_path
          = Some (Fs.Json d)
        \/ (Fs.files (SessionManager.disk w)
              !! SessionManager.chat_history_path = None /\ d = ∅) ->
        SessionManager.chat_history_path
          ∉ Fs.readonly (SessionManager.disk w) ->
        Fs.files (SessionManager.disk w') !! SessionManager.chat_history_path
          = Some (Fs.Json
                    (<[SessionManager.user_id (SessionManager.st w) :=
                         delete chat_id
                           (SessionManager.chat_history (SessionManager.st w))]>
                       d)))) /\
  (forall (chat_id : string) (now : Datetime.t) (uuid_hex : string)
          (w : SessionManager.world),
     SessionManager.chat_history (SessionManager.st w) !! chat_id = None ->
     SessionManager.delete_chat chat_id now uuid_hex w = w) /\
  (forall (chat_id : string) (now : Datetime.t) (w : Utils.world),
     Utils.current_chat_id (Utils.st w) = chat_id ->
     is_Some (Utils.chat_history (Utils.st w) !! chat_id) ->
     let out := Sidebar.render_chat_item_delete chat_id now w in
     fst out = Py.Return tt /\
     Utils.chat_history (Utils.st (snd out))
       = delete chat_id (Utils.chat_history (Utils.st w)) /\
     Utils.messages (Utils.st (snd out)) = [] /\
     Utils.current_chat_id (Utils.st (snd out)) = Utils.create_new_chat now /\
     (forall d0,
        Datetime.valid d0 -> Datetime.valid now ->
        chat_id = Utils.create_new_chat d0 ->
        ~ Datetime.same_second d0 now ->
        Utils.create_new_chat now <> chat_id) /\
     (Utils.CHAT_HISTORY_FILE ∉ Fs.readonly (Utils.disk w) ->
      Fs.files (Utils.disk (snd out)) !! Utils.CHAT_HISTORY_FILE
        = Some (Fs.Json (delete chat_id (Utils.chat_history (Utils.st w)))))).
Proof.
  split; [|split].
  - intros chat_id now uuid_hex w Hcur [entry Hentry] new_id w'.
    subst new_id w'.
    rewrite (delete_chat_active chat_id now uuid_hex w Hcur
               (ex_intro _ entry Hentry)).
    rewrite session_manager_save_st. simpl.
    split; [reflexivity|]. split; [apply lookup_delete_eq|].
    split; [reflexivity|]. split; [reflexivity|]. split.
    + intros d0 h0 V0 V1 -> Hne Heq. apply Hne. simpl in Heq.
      apply session_manager_chat_id_eq_iff in Heq; [|assumption..].
      destruct Heq as [Hs Hh]. split; [|now symmetry].
      unfold Datetime.same_second in *. intuition congruence.
    + intros d Hdoc Hrw.
      rewrite (session_manager_save_merges _ d); [|exact Hdoc|exact Hrw].
      simpl. apply lookup_insert_eq.
  - intros. now apply delete_chat_absent.
  - intros chat_id now w Hcur [entry Hentry] out. subst out.
    unfold Sidebar.render_chat_item_delete.
    rewrite decide_True by (now symmetry). simpl. rewrite Hentry. simpl.
    rewrite utils_save_st. simpl.
    split; [reflexivity|]. split; [reflexivity|]. split; [reflexivity|].
    split; [reflexivity|]. split.
    + intros d0 V0 V1 -> Hne Heq. apply Hne.
      apply utils_create_new_chat_eq_iff in Heq; [|assumption..].
      unfold Datetime.same_second in *. intuition congruence.
    + intros Hrw. rewrite utils_save_writable by exact Hrw. simpl.
      apply lookup_insert_eq.
Qed.

Lemma delete_active_chat_witness :
  let w' := SessionManager.delete_chat "chat_20240101_115800_7f3e2d1c"
              Sample.one_pm Sample.uuid_a Sample.manager_world_archived in
  SessionManager.chat_history (SessionManager.st w')
    !! "chat_20240101_115800_7f3e2d1c" = None /\
  SessionManager.messages (SessionManager.st w') = [] /\
  SessionManager.current_chat_id (SessionManager.st w')
    = Some "chat_20240101_130000_0a1b2c3d" /\
  "chat_20240101_130000_0a1b2c3d" <> "chat_20240101_115800_7f3e2d1c" /\
  SessionManager.delete_chat "chat_20240101_120000_0a1b2c3d"
    Sample.one_pm Sample.uuid_c Sample.manager_world = Sample.manager_world /\
  Utils.messages
    (Utils.st (snd (Sidebar.render_chat_item_delete "chat_20240101_115800"
                      Sample.one_pm Sample.utils_world_archived))) = [].
Proof.
  assert (V0 : Datetime.valid Sample.two_to_noon)
    by (unfold Datetime.valid; simpl; lia).
  assert (V1 : Datetime.valid Sample.one_pm)
    by (unfold Datetime.valid; simpl; lia).
  destruct delete_active_chat as (Hactive & Habsent & Hsidebar).
  destruct (Hactive "chat_20240101_115800_7f3e2d1c" Sample.one_pm Sample.uuid_a
              Sample.manager_world_archived)
    as (_ & Hgone & Hmsgs & Hcur & Hfresh & _).
  - reflexivity.
  - exists Sample.chat. reflexivity.
  - split; [exact Hgone|]. split; [exact Hmsgs|]. split; [exact Hcur|].
    split.
    + apply (Hfresh Sample.two_to_noon Sample.uuid_c V0 V1); [reflexivity|].
      intros [_ Hs]. discriminate Hs.
    + split.
      * apply Habsent. reflexivity.
      * destruct (Hsidebar "chat_20240101_115800" Sample.one_pm
                    Sample.utils_world_archived) as (_ & _ & Hm & _).
        -- reflexivity.
        -- exists Sample.chat. reflexivity.
        -- exact Hm.
Defined.

(** ** Archiving the session that is replaced *)

(** C1, as stated, fails: [switch_chat] of the session manager replaces an
    active session that has a message without archiving it; its identifier
    is not in the chat history afterwards and nothing is written to disk. *)
Lemma switch_chat_does_not_archive :
  let w := Sample.manager_world in
  let w' := SessionManager.switch_chat "chat_20240101_115800_7f3e2d1c" w in
  SessionManager.messages (SessionManager.st w) = [Sample.happy] /\
  SessionManager.current_chat_id (SessionManager.st w)
    = Some "chat_20240101_120000_0a1b2c3d" /\
  SessionManager.current_chat_id (SessionManager.st w')
    = Some "chat_20240101_115800_7f3e2d1c" /\
  SessionManager.messages (SessionManager.st w')
    = [Sample.anxious; Sample.reply] /\
  SessionManager.chat_history (SessionManager.st w')
    !! "chat_20240101_120000_0a1b2c3d" = None /\
  SessionManager.disk w' = SessionManager.disk w.
Proof. repeat split. Qed.

(** C1, amended: in the single-user application, "New Chat" and loading
    another chat first archive the current session into the chat history
    under its identifier when it has at least one message, with its
    messages, its title and the time of archiving, and add no entry when it
    has none; "New Chat" then writes the history to disk only when it
    archived, loading writes it in every case (the write succeeding when the
    file is writable). Deleting a chat archives nothing: the history loses
    the deleted entry and gains none. In the session manager, [switch_chat]
    and [create_new_chat] replace the active session without touching the
    history or the disk. *)
Theorem archive_before_replace :
  (forall (now_archive now_create : Datetime.t) (w : Utils.world),
     let w' := Sidebar.handle_new_chat now_archive now_create w in
     Utils.messages (Utils.st w') = [] /\
     Utils.current_chat_id (Utils.st w') = Utils.create_new_chat now_create /\
     (Utils.messages (Utils.st w) = [] ->
        Utils.chat_history (Utils.st w') = Utils.chat_history (Utils.st w) /\
        Utils.disk w' = Utils.disk w) /\
     (Utils.messages (Utils.st w) <> [] ->
        Utils.chat_history (Utils.st w') =
          <[Utils.current_chat_id (Utils.st w) :=
              Sidebar.archive_record (Utils.messages (Utils.st w)) now_archive]>
            (Utils.chat_history (Utils.st w)) /\
        (Utils.CHAT_HISTORY_FILE ∉ Fs.readonly (Utils.disk w) ->
         Fs.files (Utils.disk w') !! Utils.CHAT_HISTORY_FILE
           = Some (Fs.Json (Utils.chat_history (Utils.st w')))))) /\
  (forall (chat_id : string) (chat_data : ChatEntry.t) (now : Datetime.t)
          (w : Utils.world),
     let w' := Sidebar.render_chat_item_load chat_id chat_data now w in
     Utils.messages (Utils.st w')
       = default [] (ChatEntry.messages chat_data) /\
     Utils.current_chat_id (Utils.st w') = chat_id /\
     (Utils.messages (Utils.st w) = [] ->
        Utils.chat_history (Utils.st w') = Utils.chat_history (Utils.st w)) /\
     (Utils.messages (Utils.st w) <> [] ->
        Utils.chat_history (Utils.st w') =
          <[Utils.current_chat_id (Utils.st w) :=
              Sidebar.archive_record (Utils.messages (Utils.st w)) now]>
            (Utils.chat_history (Utils.st w))) /\
     (Utils.CHAT_HISTORY_FILE ∉ Fs.readonly (Utils.disk w) ->
      Fs.files (Utils.disk w') !! Utils.CHAT_HISTORY_FILE
        = Some (Fs.Json (Utils.chat_history (Utils.st w'))))) /\
  (forall (chat_id : string) (now : Datetime.t) (w : Utils.world),
     is_Some (Utils.chat_history (Utils.st w) !! chat_id) ->
     Utils.chat_history
       (Utils.st (snd (Sidebar.render_chat_item_delete chat_id now w)))
       = delete chat_id (Utils.chat_history (Utils.st w))) /\
  (forall (chat_id : string) (now : Datetime.t) (uuid_hex : string)
          (w : SessionManager.world),
     SessionManager.chat_history
       (SessionManager.st (SessionManager.switch_chat chat_id w))
       = SessionManager.chat_history (SessionManager.st w) /\
     SessionManager.disk (SessionManager.switch_chat chat_id w)
       = SessionManager.disk w /\
     SessionManager.chat_history
       (SessionManager.st (snd (SessionManager.create_new_chat now uuid_hex w)))
       = SessionManager.chat_history (SessionManager.st w) /\
     SessionManager.disk (snd (SessionManager.create_new_chat now uuid_hex w))
       = SessionManager.disk w).
Proof.
  split; [|split; [|split]].
  - intros now_archive now_create w w'. subst w'.
    unfold Sidebar.handle_new_chat.
    destruct (Utils.messages (Utils.st w)) as [|m ms] eqn:Hm; simpl.
    + split; [reflexivity|]. split; [reflexivity|].
      split; [intros _; split; reflexivity|]. intros H. now destruct H.
    + rewrite utils_save_st. simpl.
      split; [reflexivity|]. split; [reflexivity|].
      split; [discriminate|]. intros _. split; [reflexivity|].
      intros Hrw. rewrite utils_save_writable by exact Hrw. simpl.
      apply lookup_insert_eq.
  - intros chat_id chat_data now w w'. subst w'.
    unfold Sidebar.render_chat_item_load.
    rewrite utils_save_st.
    destruct (Utils.messages (Utils.st w)) as [|m ms] eqn:Hm; simpl.
    + split; [reflexivity|]. split; [reflexivity|].
      split; [reflexivity|]. split; [intros H; now destruct H|].
      intros Hrw. rewrite utils_save_writable by exact Hrw. simpl.
      apply lookup_insert_eq.
    + split; [reflexivity|]. split; [reflexivity|].
      split; [discriminate|]. split; [reflexivity|].
      intros Hrw. rewrite utils_save_writable by exact Hrw. simpl.
      apply lookup_insert_eq.
  - intros chat_id now w [entry Hentry].
    unfold Sidebar.render_chat_item_delete.
    destruct (decide (chat_id = Utils.current_chat_id (Utils.st w)));
      simpl; rewrite Hentry; simpl; rewrite utils_save_st; reflexivity.
  - intros chat_id now uuid_hex w.
    destruct (switch_chat_frame chat_id w) as [H1 H2].
    split; [exact H1|]. split; [exact H2|]. split; reflexivity.
Qed.

Lemma archive_before_replace_witness :
  let w1 := Sidebar.handle_new_chat Sample.noon Sample.noon_and_a_half
              Sample.utils_world in
  let w2 := Sidebar.render_chat_item_load "chat_20240101_115800" Sample.chat
              Sample.noon Sample.utils_world_corrupt in
  Utils.chat_history (Utils.st w1) !! "chat_20240101_115800"
    = Some {| ChatEntry.messages := Some [Sample.anxious; Sample.reply];
              ChatEntry.title := Some "I feel anxious";
              ChatEntry.timestamp := Some "2024-01-01T12:00:00" |} /\
  Fs.files (Utils.disk w1) !! Utils.CHAT_HISTORY_FILE
    = Some (Fs.Json (Utils.chat_history (Utils.st w1))) /\
  Utils.chat_history (Utils.st w2) = ∅ /\
  Utils.chat_history
    (Utils.st (snd (Sidebar.render_chat_item_delete "chat_20240101_115800"
                      Sample.one_pm Sample.utils_world_archived)))
    = delete "chat_20240101_115800" Sample.history.
Proof.
  destruct archive_before_replace as (Hnew & Hload & Hdelete & _).
  destruct (Hnew Sample.noon Sample.noon_and_a_half Sample.utils_world)
    as (_ & _ & _ & Harch).
  destruct Harch as [Hhist Hdisk]; [discriminate|].
  destruct (Hload "chat_20240101_115800" Sample.chat Sample.noon
              Sample.utils_world_corrupt) as (_ & _ & Hempty & _).
  split.
  - rewrite Hhist. apply lookup_insert_eq.
  - split.
    + apply Hdisk. sample_writable.
    + split.
      * apply Hempty. reflexivity.
      * apply Hdelete. exists Sample.chat. reflexivity.
Defined.

(** * Further properties of the code *)

(** ** Titles *)

Lemma length_append (a b : string) :
  String.length (a +:+ b) = (String.length a + String.length b)%nat.
Proof.
  induction a as [|c a IH]; [reflexivity|].
  rewrite append_cons. simpl. now rewrite IH.
Qed.

(** X1: the title of a chat is that of its first message alone, whatever
    follows it or is appended later, and it has at most 33 characters. *)
Theorem get_chat_title_stable (first : Message.t) (rest more : list Message.t) :
  Utils.get_chat_title ((first :: rest) ++ more) = Utils.get_chat_title [first] /\
  (String.length (Utils.get_chat_title ((first :: rest) ++ more)) <= 33)%nat.
Proof.
  split; [reflexivity|].
  change (Utils.get_chat_title ((first :: rest) ++ more))
    with (Utils.get_chat_title [first]).
  unfold Utils.get_chat_title.
  set (c := default EmptyString (Message.content first)).
  destruct (30 <? String.length c)%nat eqn:E.
  - rewrite length_append, length_slice_to.
    change (String.length "...") with 3%nat. lia.
  - apply Nat.ltb_ge in E. lia.
Qed.

(** ** The emotion analysis that is returned *)

Lemma lower_char_idempotent (c : ascii) :
  Py.lower_char (Py.lower_char c) = Py.lower_char c.
Proof. destruct c as [[] [] [] [] [] [] [] []]; reflexivity. Qed.

Lemma lower_idempotent (s : string) : Py.lower (Py.lower s) = Py.lower s.
Proof.
  induction s as [|c s IH]; simpl; [reflexivity|].
  now rewrite lower_char_idempotent, IH.
Qed.

Lemma max_by_score_from_elem (best : score_entry) (rest : list score_entry) :
  Utils.max_by_score_from best rest ∈ best :: rest.
Proof.
  revert best. induction rest as [|x rest IH]; intros best; simpl.
  - apply list_elem_of_here.
  - destruct (PrimFloat.ltb (score best) (score x)).
    + apply list_elem_of_further, IH.
    + specialize (IH best). apply elem_of_cons in IH as [->|IH].
      * apply list_elem_of_here.
      * now do 2 apply list_elem_of_further.
Qed.

Lemma max_by_score_elem (results : list score_entry) (best : score_entry) :
  Utils.max_by_score results = Py.Return best -> best ∈ results.
Proof.
  destruct results as [|x rest]; simpl; [discriminate|].
  intros [= <-]. apply max_by_score_from_elem.
Qed.

(** Every run of [analyze_emotion] returns, either a neutral analysis without
    raw results or the analysis built from the best entry of the results. *)
Lemma analyze_emotion_cases (text : string)
    (data : option (option pipeline * option string)) (w : Utils.world) :
  exists a w',
    Utils.analyze_emotion text data w = (Py.Return a, w') /\
    Utils.st w' = Utils.st w /\ Utils.disk w' = Utils.disk w /\
    ((EmotionAnalysis.raw_results a = None /\
      EmotionAnalysis.emotion a = "neutral" /\
      EmotionAnalysis.intensity a = 3%Z)
     \/ exists results best,
          Utils.max_by_score results = Py.Return best /\
          a = {| EmotionAnalysis.emotion := Py.lower (label best);
                 EmotionAnalysis.confidence := score best;
                 EmotionAnalysis.intensity :=
                   default 3%Z
                     (Utils.emotion_to_intensity !! Py.lower (label best));
                 EmotionAnalysis.raw_results := Some results;
                 EmotionAnalysis.model_type :=
                   match data with
                   | Some (_, mt) => mt
                   | None => None
                   end |}).
Proof.
  unfold Utils.analyze_emotion.
  destruct data as [[[p|] mt]|];
    try (eexists _, _; split; [reflexivity|]; simpl;
         split; [reflexivity|]; split; [reflexivity|]; left; tauto).
  destruct (Py.all_chars Py.isspace text) eqn:Hblank.
  - rewrite (analyze_emotion_try_blank text p mt w Hblank).
    eexists _, _. split; [reflexivity|]. simpl.
    split; [reflexivity|]. split; [reflexivity|]. left. tauto.
  - destruct (analyze_emotion_try_text text p mt w Hblank) as [Hw Hr].
    destruct (Utils.analyze_emotion_try text p mt w) as [r w1].
    simpl in Hw, Hr. subst r w1.
    destruct (p (Py.slice_to 512 text)) as [results|e]; simpl.
    + destruct (Utils.max_by_score (Utils.unwrap_results results))
        as [best|e] eqn:Hbest; simpl.
      * eexists _, _. split; [reflexivity|]. simpl.
        split; [reflexivity|]. split; [reflexivity|]. right.
        exists (Utils.unwrap_results results), best. now split.
      * eexists _, _. split; [reflexivity|]. simpl.
        split; [reflexivity|]. split; [reflexivity|]. left. tauto.
    + eexists _, _. split; [reflexivity|]. simpl.
      split; [reflexivity|]. split; [reflexivity|]. left. tauto.
Qed.

(** X2: in whatever [analyze_emotion] returns, the intensity is the one the
    mapping gives for the reported emotion (3 when it has none), the emotion
    is in lower case, and, when raw results are attached, emotion and
    confidence are the lower-cased label and the score of one and the same
    entry of those results; without raw results the emotion is neutral. *)
Theorem analyze_emotion_consistent (text : string)
    (data : option (option pipeline * option string))
    (w w' : Utils.world) (a : EmotionAnalysis.t) :
  Utils.analyze_emotion text data w = (Py.Return a, w') ->
  EmotionAnalysis.intensity a =
    default 3%Z (Utils.emotion_to_intensity !! EmotionAnalysis.emotion a) /\
  Py.lower (EmotionAnalysis.emotion a) = EmotionAnalysis.emotion a /\
  match EmotionAnalysis.raw_results a with
  | Some results =>
      exists entry, entry ∈ results /\
        EmotionAnalysis.emotion a = Py.lower (label entry) /\
        EmotionAnalysis.confidence a = score entry
  | None => EmotionAnalysis.emotion a = "neutral"
  end.
Proof.
  intros Hrun.
  destruct (analyze_emotion_cases text data w) as (a0 & w0 & H0 & _ & _ & Hcase).
  rewrite Hrun in H0. injection H0 as <- <-.
  destruct Hcase as [(Hraw & Hemo & Hint) | (results & best & Hbest & ->)].
  - rewrite Hraw, Hemo, Hint. repeat split; reflexivity.
  - simpl. split; [reflexivity|]. split; [apply lower_idempotent|].
    exists best. split; [now apply max_by_score_elem|]. now split.
Qed.

Lemma analyze_emotion_consistent_witness :
  exists a w',
    Utils.analyze_emotion "I feel anxious"
      (Some (Some Sample.classifier, Some "distilbert-emotion"))
      Sample.utils_world = (Py.Return a, w') /\
    EmotionAnalysis.emotion a = "disgust" /\
    EmotionAnalysis.intensity a = 3%Z /\
    Py.lower (EmotionAnalysis.emotion a) = EmotionAnalysis.emotion a.
Proof.
  eexists _, _. split; [reflexivity|].
  split; [reflexivity|].
  destruct (analyze_emotion_consistent "I feel anxious"
              (Some (Some Sample.classifier, Some "distilbert-emotion"))
              Sample.utils_world _ _ eq_refl) as (Hint & Hlow & _).
  split; [exact Hint|exact Hlow].
Defined.

(** ** The single-user store after a quarantine *)

(** What [load_chat_history] does on a file that does not parse when the
    rename is permitted. *)
Lemma load_chat_history_quarantine (now : Datetime.t) (w : Utils.world)
    (raw : string) (f : Fs.file (gmap string ChatEntry.t)) :
  f = Fs.Malformed raw \/ f = Fs.Undecodable raw ->
  Fs.files (Utils.disk w) !! Utils.CHAT_HISTORY_FILE = Some f ->
  Utils.CHAT_HISTORY_FILE ∉ Fs.readonly (Utils.disk w) ->
  "chat_history_backup_" +:+ Datetime.strftime_Ymd_HMS now +:+ ".json"
    ∉ Fs.readonly (Utils.disk w) ->
  exists e,
    Utils.load_chat_history now w =
      (Py.Return ∅,
       Utils.notify St.info
         ("Corrupted history backed up as "
          +:+ "chat_history_backup_" +:+ Datetime.strftime_Ymd_HMS now
          +:+ ".json") None
         (Utils.set_disk
            {| Fs.files :=
                 <["chat_history_backup_" +:+ Datetime.strftime_Ymd_HMS now
                   +:+ ".json" := f]>
                   (delete Utils.CHAT_HISTORY_FILE (Fs.files (Utils.disk w)));
               Fs.write_protected := Fs.write_protected (Utils.disk w) |}
            (Utils.notify St.warning "Could not load chat history: " (Some e)
               w))).
Proof.
  intros Hf Hfile Hro Hro'.
  unfold Utils.load_chat_history, Fs.exists_, Fs.json_load. rewrite Hfile.
  destruct Hf as [-> | ->]; simpl; unfold Fs.rename; simpl; rewrite Hfile;
    (rewrite decide_False by (intros [?|?]; contradiction));
    eexists; reflexivity.
Qed.

(** X3: once [load_chat_history] has moved a corrupt history file aside,
    the next load finds no file: it returns the empty history and changes
    nothing, neither the disk nor the notices, and the backup still holds
    the corrupt bytes. *)
Theorem load_chat_history_quarantines_once (now now' : Datetime.t)
    (w : Utils.world) (raw : string) (f : Fs.file (gmap string ChatEntry.t)) :
  f = Fs.Malformed raw \/ f = Fs.Undecodable raw ->
  Fs.files (Utils.disk w) !! Utils.CHAT_HISTORY_FILE = Some f ->
  Utils.CHAT_HISTORY_FILE ∉ Fs.readonly (Utils.disk w) ->
  "chat_history_backup_" +:+ Datetime.strftime_Ymd_HMS now +:+ ".json"
    ∉ Fs.readonly (Utils.disk w) ->
  let w1 := snd (Utils.load_chat_history now w) in
  Utils.load_chat_history now' w1 = (Py.Return ∅, w1) /\
  Fs.files (Utils.disk w1)
    !! ("chat_history_backup_" +:+ Datetime.strftime_Ymd_HMS now +:+ ".json")
    = Some f.
Proof.
  intros Hf Hfile Hro Hro' w1. subst w1.
  destruct (load_chat_history_quarantine now w raw f Hf Hfile Hro Hro')
    as [e ->].
  simpl. split; [|apply lookup_insert_eq].
  unfold Utils.load_chat_history, Fs.exists_. simpl.
  rewrite lookup_insert_ne by apply backup_name_distinct.
  now rewrite lookup_delete_eq.
Qed.

Lemma load_chat_history_quarantines_once_witness :
  let w1 := snd (Utils.load_chat_history Sample.noon Sample.utils_world_corrupt) in
  Utils.load_chat_history Sample.one_pm w1 = (Py.Return ∅, w1) /\
  Fs.files (Utils.disk w1) !! "chat_history_backup_20240101_120000.json"
    = Some (Fs.Malformed "{chat_1: [truncated").
Proof.
  apply (load_chat_history_quarantines_once Sample.noon Sample.one_pm
           Sample.utils_world_corrupt "{chat_1: [truncated"
           (Fs.Malformed "{chat_1: [truncated")).
  - left. reflexivity.
  - reflexivity.
  - sample_writable.
  - sample_writable.
Defined.

(** ** The multi-user store under sequences of operations *)

Lemma session_manager_load_disk (w : SessionManager.world) :
  SessionManager.disk (SessionManager._load_persisted_data w)
    = SessionManager.disk w.
Proof.
  unfold SessionManager._load_persisted_data.
  destruct (Fs.exists_ _ _); [|reflexivity].
  destruct (Fs.json_load _ _) as [data|e]; [|reflexivity].
  now destruct (data !! _).
Qed.

(** What [save_chat_history] does when the file cannot be written. *)
Lemma session_manager_save_readonly (w : SessionManager.world) :
  SessionManager.chat_history_path ∈ Fs.readonly (SessionManager.disk w) ->
  SessionManager.save_chat_history w =
    SessionManager.notify St.warning "Could not save chat history" None w.
Proof.
  intros H. unfold SessionManager.save_chat_history.
  destruct (Py.bind _ _) as [d|e] eqn:E; [|reflexivity].
  unfold Py.bind in E.
  destruct (if Fs.exists_ _ _ then _ else _) as [data|e]; [|discriminate].
  now rewrite json_dump_readonly in E.
Qed.

(** A save changes the disk, if at all, at the path of the history file
    only, and keeps the set of read-only paths. *)
Lemma session_manager_save_disk_cases (w : SessionManager.world) :
  SessionManager.disk (SessionManager.save_chat_history w)
    = SessionManager.disk w
  \/ exists d,
       (Fs.files (SessionManager.disk w) !! SessionManager.chat_history_path
          = Some (Fs.Json d)
        \/ (Fs.files (SessionManager.disk w)
              !! SessionManager.chat_history_path = None /\ d = ∅)) /\
       SessionManager.chat_history_path
         ∉ Fs.readonly (SessionManager.disk w).
Proof.
  destruct (decide (SessionManager.chat_history_path
                      ∈ Fs.readonly (SessionManager.disk w))) as [Hro|Hrw].
  - left. now rewrite session_manager_save_readonly.
  - destruct (Fs.files (SessionManager.disk w)
                !! SessionManager.chat_history_path) as [[raw|raw|d|raw|]|] eqn:E;
      [left|left|right; exists d; split; [now left|exact Hrw]
      |left|left|right; exists ∅; split; [now right|exact Hrw]];
      (erewrite session_manager_save_unloadable;
       [reflexivity
       |unfold Fs.exists_; now rewrite E
       |unfold Fs.json_load; now rewrite E]).
Qed.

Lemma script_step_corrupt (o : Script.op) (w : SessionManager.world)
    (raw : string) :
  Fs.files (SessionManager.disk w) !! SessionManager.chat_history_path
    = Some (Fs.Malformed raw)
  \/ Fs.files (SessionManager.disk w) !! SessionManager.chat_history_path
    = Some (Fs.Undecodable raw) ->
  SessionManager.disk (Script.step o w) = SessionManager.disk w.
Proof.
  intros Hbad. destruct o as [| |now uuid_hex|chat_id|chat_id now uuid_hex]; simpl.
  - apply session_manager_load_disk.
  - now rewrite (session_manager_save_corrupt w raw Hbad).
  - reflexivity.
  - apply switch_chat_frame.
  - unfold SessionManager.delete_chat.
    destruct (SessionManager.chat_history (SessionManager.st w) !! chat_id);
      [|reflexivity].
    match goal with
    | |- SessionManager.disk (SessionManager.save_chat_history ?x) = _ =>
        rewrite (session_manager_save_corrupt x raw)
    end; simpl.
    + now destruct (decide _).
    + now destruct (decide _).
Qed.

(** X4: a history file of the multi-user store that does not parse is never
    repaired: no sequence of loads, saves, new chats, switches and deletions
    changes anything on disk, whatever the sessions hold. *)
Theorem corrupt_history_file_is_permanent (ops : list Script.op)
    (w : SessionManager.world) (raw : string) :
  Fs.files (SessionManager.disk w) !! SessionManager.chat_history_path
    = Some (Fs.Malformed raw)
  \/ Fs.files (SessionManager.disk w) !! SessionManager.chat_history_path
    = Some (Fs.Undecodable raw) ->
  SessionManager.disk (Script.run ops w) = SessionManager.disk w.
Proof.
  revert w. induction ops as [|o ops IH]; intros w Hbad; [reflexivity|].
  unfold Script.run in *. simpl.
  pose proof (script_step_corrupt o w raw Hbad) as Hstep.
  rewrite IH; [exact Hstep|]. now rewrite Hstep.
Qed.

Lemma corrupt_history_file_is_permanent_witness :
  SessionManager.disk
    (Script.run
       [ Script.Load; Script.NewChat Sample.noon Sample.uuid_a; Script.Save;
         Script.Switch "chat_20240101_115800_7f3e2d1c"; Script.Save ]
       (SessionManager.set_disk
          (Sample.corrupt_disk SessionManager.chat_history_path)
          Sample.manager_world))
  = Sample.corrupt_disk SessionManager.chat_history_path.
Proof.
  change (Sample.corrupt_disk SessionManager.chat_history_path)
    with (SessionManager.disk
            (SessionManager.set_disk
               (Sample.corrupt_disk SessionManager.chat_history_path)
               Sample.manager_world)) at 2.
  apply (corrupt_history_file_is_permanent _ _ "{chat_1: [truncated").
  left. reflexivity.
Defined.

(** The disk a save leaves, by what it found. *)
Lemma session_manager_save_disk (w : SessionManager.world) :
  SessionManager.disk (SessionManager.save_chat_history w) =
    let fs := SessionManager.disk w in
    let written d :=
      {| Fs.files :=
           <[SessionManager.chat_history_path :=
               Fs.Json (<[SessionManager.user_id (SessionManager.st w) :=
                            SessionManager.chat_history (SessionManager.st w)]> d)]>
             (Fs.files fs);
         Fs.write_protected := Fs.write_protected fs |} in
    if decide (SessionManager.chat_history_path ∈ Fs.readonly fs) then fs
    else match Fs.files fs !! SessionManager.chat_history_path with
         | Some (Fs.Json d) => written d
         | None => written ∅
         | Some _ => fs
         end.
Proof.
  simpl. destruct (decide _) as [Hro|Hrw].
  - now rewrite session_manager_save_readonly.
  - destruct (Fs.files (SessionManager.disk w)
                !! SessionManager.chat_history_path) as [[raw|raw|d|raw|]|] eqn:E;
      [| |rewrite (session_manager_save_merges w d);
          [reflexivity|now left|exact Hrw]
      | | |rewrite (session_manager_save_merges w ∅);
          [reflexivity|now right|exact Hrw]];
      (erewrite session_manager_save_unloadable;
       [reflexivity
       |unfold Fs.exists_; now rewrite E
       |unfold Fs.json_load; now rewrite E]).
Qed.

(** X5: saving never changes the session, and saving twice leaves the disk
    as saving once does, whether the save succeeds or not. *)
Theorem save_chat_history_idempotent (w : SessionManager.world) :
  SessionManager.st (SessionManager.save_chat_history w) = SessionManager.st w /\
  SessionManager.disk
    (SessionManager.save_chat_history (SessionManager.save_chat_history w))
  = SessionManager.disk (SessionManager.save_chat_history w).
Proof.
  split; [apply session_manager_save_st|].
  rewrite (session_manager_save_disk (SessionManager.save_chat_history w)).
  rewrite session_manager_save_st.
  rewrite (session_manager_save_disk w). cbv zeta.
  destruct (decide (SessionManager.chat_history_path
                      ∈ Fs.readonly (SessionManager.disk w))) as [Hro|Hrw].
  - now rewrite decide_True.
  - destruct (Fs.files (SessionManager.disk w)
                !! SessionManager.chat_history_path) as [[raw|raw|d|raw|]|] eqn:E;
      rewrite ?readonly_written by exact Hrw;
      rewrite decide_False by exact Hrw;
      simpl; rewrite ?E, ?lookup_insert_eq; try reflexivity;
      now rewrite !insert_insert_eq.
Qed.

(** X6: when two different users save into the same file one after the
    other, the order does not matter; if the file can be written, whatever
    document it holds afterwards has both users' histories. *)
Theorem saves_of_two_users_commute
    (fs : Fs.t (gmap string (gmap string ChatEntry.t)))
    (w1 w2 : SessionManager.world) :
  SessionManager.user_id (SessionManager.st w1)
    <> SessionManager.user_id (SessionManager.st w2) ->
  let save_on fs w :=
    SessionManager.disk
      (SessionManager.save_chat_history (SessionManager.set_disk fs w)) in
  save_on (save_on fs w1) w2 = save_on (save_on fs w2) w1 /\
  (SessionManager.chat_history_path ∉ Fs.readonly fs ->
   forall doc,
     Fs.json_load (save_on (save_on fs w1) w2) SessionManager.chat_history_path
       = Py.Return doc ->
     doc !! SessionManager.user_id (SessionManager.st w1)
       = Some (SessionManager.chat_history (SessionManager.st w1)) /\
     doc !! SessionManager.user_id (SessionManager.st w2)
       = Some (SessionManager.chat_history (SessionManager.st w2))).
Proof.
  intros Hne save_on. subst save_on. simpl.
  rewrite !session_manager_save_disk. simpl.
  destruct (decide (SessionManager.chat_history_path ∈ Fs.readonly fs))
    as [Hro|Hrw].
  - simpl. rewrite !decide_True by exact Hro. split; [reflexivity|].
    intros H. contradiction.
  - destruct (Fs.files fs !! SessionManager.chat_history_path)
      as [[raw|raw|d|raw|]|] eqn:E; simpl;
      rewrite ?readonly_written by exact Hrw;
      rewrite ?decide_False by exact Hrw; rewrite ?E; simpl;
      rewrite ?decide_False by exact Hrw;
      rewrite ?lookup_insert_eq, ?E;
      try (split; [reflexivity|]; intros _ doc; unfold Fs.json_load;
           now rewrite E).
    + split.
      * rewrite !insert_insert_eq. do 2 f_equal. f_equal.
        now apply insert_insert_ne.
      * intros _ doc. unfold Fs.json_load. simpl.
        rewrite lookup_insert_eq. intros [= <-].
        rewrite lookup_insert_ne by congruence.
        now rewrite !lookup_insert_eq.
    + split.
      * rewrite !insert_insert_eq. do 2 f_equal. f_equal.
        now apply insert_insert_ne.
      * intros _ doc. unfold Fs.json_load. simpl.
        rewrite lookup_insert_eq. intros [= <-].
        rewrite lookup_insert_ne by congruence.
        now rewrite !lookup_insert_eq.
Qed.

Lemma saves_of_two_users_commute_witness :
  let save_on fs w :=
    SessionManager.disk
      (SessionManager.save_chat_history (SessionManager.set_disk fs w)) in
  let fs := SessionManager.disk Sample.manager_world in
  save_on (save_on fs Sample.manager_world) Sample.manager_world_c
    = save_on (save_on fs Sample.manager_world_c) Sample.manager_world.
Proof.
  intros save_on fs.
  apply (saves_of_two_users_commute fs Sample.manager_world
           Sample.manager_world_c).
  discriminate.
Defined.

(** ** Deleting a chat that is not the active one *)

(** X7: [delete_chat] of the session manager removes the given identifier
    from the history and no other; the user identifier is kept, and when the
    identifier is not the active one the active identifier and the messages
    are kept too. *)
Theorem delete_chat_frame (chat_id : string) (now : Datetime.t)
    (uuid_hex : string) (w : SessionManager.world) :
  let w' := SessionManager.delete_chat chat_id now uuid_hex w in
  SessionManager.chat_history (SessionManager.st w') !! chat_id = None /\
  (forall other, other <> chat_id ->
     SessionManager.chat_history (SessionManager.st w') !! other
     = SessionManager.chat_history (SessionManager.st w) !! other) /\
  SessionManager.user_id (SessionManager.st w')
    = SessionManager.user_id (SessionManager.st w) /\
  (SessionManager.current_chat_id (SessionManager.st w) <> Some chat_id ->
   SessionManager.current_chat_id (SessionManager.st w')
     = SessionManager.current_chat_id (SessionManager.st w) /\
   SessionManager.messages (SessionManager.st w')
     = SessionManager.messages (SessionManager.st w)).
Proof.
  intros w'. subst w'. unfold SessionManager.delete_chat.
  destruct (SessionManager.chat_history (SessionManager.st w) !! chat_id)
    as [entry|] eqn:E.
  - rewrite session_manager_save_st. simpl.
    destruct (decide (Some chat_id
                      = SessionManager.current_chat_id (SessionManager.st w)))
      as [Hcur|Hcur]; simpl.
    + split; [apply lookup_delete_eq|].
      split; [intros other Ho; now apply lookup_delete_ne|].
      split; [reflexivity|]. intros Hne. now destruct Hne.
    + split; [apply lookup_delete_eq|].
      split; [intros other Ho; now apply lookup_delete_ne|].
      split; [reflexivity|]. intros _. split; reflexivity.
  - split; [exact E|]. split; [reflexivity|]. split; [reflexivity|].
    intros _. split; reflexivity.
Qed.

(** X8: the delete button of the sidebar. On an identifier that is in the
    history it returns, removes that entry and no other, and keeps the
    active identifier and the messages unless the identifier is the active
    one. On an identifier that is not in the history it raises [KeyError]
    with history, disk and notices unchanged, though an active session with
    that identifier has been emptied and renamed before. *)
Theorem render_chat_item_delete_cases (chat_id : string) (now : Datetime.t)
    (w : Utils.world) :
  let out := Sidebar.render_chat_item_delete chat_id now w in
  (is_Some (Utils.chat_history (Utils.st w) !! chat_id) ->
   fst out = Py.Return tt /\
   Utils.chat_history (Utils.st (snd out)) !! chat_id = None /\
   (forall other, other <> chat_id ->
      Utils.chat_history (Utils.st (snd out)) !! other
      = Utils.chat_history (Utils.st w) !! other) /\
   (chat_id <> Utils.current_chat_id (Utils.st w) ->
    Utils.current_chat_id (Utils.st (snd out))
      = Utils.current_chat_id (Utils.st w) /\
    Utils.messages (Utils.st (snd out)) = Utils.messages (Utils.st w))) /\
  (Utils.chat_history (Utils.st w) !! chat_id = None ->
   fst out = Py.Raise (Py.KeyError chat_id) /\
   Utils.chat_history (Utils.st (snd out)) = Utils.chat_history (Utils.st w) /\
   Utils.disk (snd out) = Utils.disk w /\
   Utils.ui (snd out) = Utils.ui w /\
   (chat_id <> Utils.current_chat_id (Utils.st w) -> snd out = w) /\
   (chat_id = Utils.current_chat_id (Utils.st w) ->
    Utils.messages (Utils.st (snd out)) = [] /\
    Utils.current_chat_id (Utils.st (snd out)) = Utils.create_new_chat now)).
Proof.
  intros out. subst out. unfold Sidebar.render_chat_item_delete. split.
  - intros [entry Hentry].
    destruct (decide (chat_id = Utils.current_chat_id (Utils.st w)))
      as [Hcur|Hcur]; simpl; rewrite Hentry; simpl; rewrite utils_save_st;
      simpl.
    + split; [reflexivity|]. split; [apply lookup_delete_eq|].
      split; [intros other Ho; now apply lookup_delete_ne|].
      intros Hne. now destruct Hne.
    + split; [reflexivity|]. split; [apply lookup_delete_eq|].
      split; [intros other Ho; now apply lookup_delete_ne|].
      intros _. split; reflexivity.
  - intros Hnone.
    destruct (decide (chat_id = Utils.current_chat_id (Utils.st w)))
      as [Hcur|Hcur]; simpl; rewrite Hnone; simpl.
    + do 4 (split; [reflexivity|]). split.
      * intros Hne. now destruct Hne.
      * intros _. split; reflexivity.
    + do 4 (split; [reflexivity|]). split.
      * intros _. reflexivity.
      * intros Heq. now destruct Hcur.
Qed.

(** ** New chat, then back *)

(** X9: a session with messages that "New Chat" has archived is found in
    the history under its identifier, and loading that entry makes it the
    active session again with exactly its messages, the history staying as
    it is. *)
Theorem new_chat_then_load_restores (now_archive now_create now_load : Datetime.t)
    (w : Utils.world) :
  Utils.messages (Utils.st w) <> [] ->
  let chat_id := Utils.current_chat_id (Utils.st w) in
  let w1 := Sidebar.handle_new_chat now_archive now_create w in
  exists chat_data,
    Utils.chat_history (Utils.st w1) !! chat_id = Some chat_data /\
    let w2 := Sidebar.render_chat_item_load chat_id chat_data now_load w1 in
    Utils.messages (Utils.st w2) = Utils.messages (Utils.st w) /\
    Utils.current_chat_id (Utils.st w2) = chat_id /\
    Utils.chat_history (Utils.st w2) = Utils.chat_history (Utils.st w1).
Proof.
  intros Hmsgs chat_id w1. subst chat_id w1.
  exists (Sidebar.archive_record (Utils.messages (Utils.st w)) now_archive).
  unfold Sidebar.handle_new_chat, Sidebar.render_chat_item_load.
  destruct (Utils.messages (Utils.st w)) as [|m ms] eqn:Hm; [now destruct Hmsgs|].
  simpl. rewrite !utils_save_st. simpl.
  split; [apply lookup_insert_eq|]. repeat split; reflexivity.
Qed.

Lemma new_chat_then_load_restores_witness :
  exists chat_data,
    Utils.chat_history
      (Utils.st (Sidebar.handle_new_chat Sample.noon Sample.noon_and_a_half
                   Sample.utils_world))
      !! "chat_20240101_115800" = Some chat_data /\
    Utils.messages
      (Utils.st
         (Sidebar.render_chat_item_load "chat_20240101_115800" chat_data
            Sample.one_pm
            (Sidebar.handle_new_chat Sample.noon Sample.noon_and_a_half
               Sample.utils_world)))
    = [Sample.anxious; Sample.reply].
Proof.
  destruct (new_chat_then_load_restores Sample.noon Sample.noon_and_a_half
              Sample.one_pm Sample.utils_world)
    as (chat_data & Hfound & Hmsgs & _).
  - discriminate.
  - exists chat_data. split; [exact Hfound|exact Hmsgs].
Defined.

(** ** A new chat within the second the current one was created in *)

Lemma strftime_same_second (a b : Datetime.t) :
  Datetime.same_second a b ->
  Datetime.strftime_Ymd_HMS a = Datetime.strftime_Ymd_HMS b.
Proof.
  intros (Ey & Emo & Ed & Eh & Emi & Es).
  unfold Datetime.strftime_Ymd_HMS. now rewrite Ey, Emo, Ed, Eh, Emi, Es.
Qed.

(** The session "New Chat" leaves. *)
Lemma handle_new_chat_st (now_archive now_create : Datetime.t) (w : Utils.world) :
  Utils.st (Sidebar.handle_new_chat now_archive now_create w) =
    {| Utils.chat_history :=
         match Utils.messages (Utils.st w) with
         | [] => Utils.chat_history (Utils.st w)
         | _ :: _ =>
             <[Utils.current_chat_id (Utils.st w) :=
                 Sidebar.archive_record (Utils.messages (Utils.st w))
                   now_archive]> (Utils.chat_history (Utils.st w))
         end;
       Utils.current_chat_id := Utils.create_new_chat now_create;
       Utils.messages := [] |}.
Proof.
  unfold Sidebar.handle_new_chat.
  destruct (Utils.messages (Utils.st w)); simpl; [reflexivity|].
  now rewrite utils_save_st.
Qed.

(** X10: in the single-user application, when "New Chat" is pressed within
    the second in which the current chat was created, the new chat gets the
    identifier of the one just archived; once the new chat has a message,
    the next "New Chat" archives it under that identifier and the entry of
    the earlier chat is replaced. *)
Theorem new_chat_within_creation_second_overwrites
    (created now_archive now_create now_archive' now_create' : Datetime.t)
    (m : Message.t) (w : Utils.world) :
  Utils.current_chat_id (Utils.st w) = Utils.create_new_chat created ->
  Datetime.same_second created now_create ->
  Utils.messages (Utils.st w) <> [] ->
  let chat_id := Utils.current_chat_id (Utils.st w) in
  let w1 := Sidebar.handle_new_chat now_archive now_create w in
  let w2 :=
    Sidebar.handle_new_chat now_archive' now_create' (App.append_message m w1) in
  Utils.chat_history (Utils.st w1) !! chat_id
    = Some (Sidebar.archive_record (Utils.messages (Utils.st w)) now_archive) /\
  Utils.current_chat_id (Utils.st w1) = chat_id /\
  Utils.chat_history (Utils.st w2) !! chat_id
    = Some (Sidebar.archive_record [m] now_archive').
Proof.
  intros Hid Hsame Hmsgs chat_id w1 w2. subst chat_id w1 w2.
  assert (Hnew : Utils.create_new_chat now_create
                 = Utils.current_chat_id (Utils.st w)).
  { rewrite Hid. unfold Utils.create_new_chat.
    now rewrite (strftime_same_second created now_create Hsame). }
  rewrite (handle_new_chat_st now_archive' now_create').
  unfold App.append_message, Utils.set_st.
  cbn [Utils.st Utils.messages Utils.chat_history Utils.current_chat_id].
  rewrite (handle_new_chat_st now_archive now_create).
  cbn [Utils.st Utils.messages Utils.chat_history Utils.current_chat_id app].
  rewrite Hnew.
  destruct (Utils.messages (Utils.st w)) as [|m0 ms] eqn:Hm;
    [now destruct Hmsgs|].
  split; [apply lookup_insert_eq|]. split; [reflexivity|].
  apply lookup_insert_eq.
Qed.

Lemma new_chat_within_creation_second_overwrites_witness :
  let w1 := Sidebar.handle_new_chat Sample.noon Sample.two_to_noon
              Sample.utils_world in
  let w2 := Sidebar.handle_new_chat Sample.one_pm Sample.one_pm
              (App.append_message Sample.happy w1) in
  Utils.chat_history (Utils.st w1) !! "chat_20240101_115800"
    = Some (Sidebar.archive_record [Sample.anxious; Sample.reply] Sample.noon) /\
  Utils.chat_history (Utils.st w2) !! "chat_20240101_115800"
    = Some (Sidebar.archive_record [Sample.happy] Sample.one_pm).
Proof.
  destruct (new_chat_within_creation_second_overwrites
              Sample.two_to_noon Sample.noon Sample.two_to_noon
              Sample.one_pm Sample.one_pm Sample.happy Sample.utils_world)
    as (H1 & _ & H2).
  - reflexivity.
  - repeat split.
  - discriminate.
  - split; [exact H1|exact H2].
Defined.

(** ** The reply generator *)

Lemma last_n_app_exact {A : Type} (n : nat) (older recent : list A) :
  length recent = n -> PyList.last_n n (older ++ recent) = recent.
Proof.
  intros <-. unfold PyList.last_n. rewrite length_app.
  replace (length older + length recent - length recent)%nat
    with (length older) by lia.
  apply drop_app_length.
Qed.

Lemma all_but_last_snoc {A : Type} (l : list A) (x : A) :
  PyList.all_but_last (l ++ [x]) = l.
Proof.
  unfold PyList.all_but_last. rewrite length_app. simpl.
  replace (length l + 1 - 1)%nat with (length l) by lia.
  apply take_app_length.
Qed.

(** [(h + [m])[-6:][:-1]] is [h[-5:]]. *)
Lemma recent_before_last {A : Type} (h : list A) (m : A) :
  PyList.all_but_last (PyList.last_n 6 (h ++ [m])) = PyList.last_n 5 h.
Proof.
  unfold PyList.last_n. rewrite length_app. simpl.
  replace (length h + 1 - 6)%nat with (length h - 5)%nat by lia.
  rewrite drop_app_le by lia. apply all_but_last_snoc.
Qed.

Lemma history_context_snoc (h : list Message.t) (m : Message.t) :
  Gemini.history_context (h ++ [m]) =
    match h with
    | [] => EmptyString
    | _ :: _ =>
        fold_left (fun acc msg => acc +:+ Gemini.history_line msg)
          (PyList.last_n 5 h)
          (Gemini.nl +:+ Gemini.nl +:+ "Recent conversation context:"
           +:+ Gemini.nl)
    end.
Proof.
  unfold Gemini.history_context. rewrite recent_before_last, length_app.
  destruct h as [|x h]; [reflexivity|].
  simpl length. now destruct (Nat.ltb_spec 1 (S (length h) + 1)); [|lia].
Qed.

Lemma length_history_line (msg : Message.t) :
  (String.length (Gemini.history_line msg) <= 165)%nat.
Proof.
  unfold Gemini.history_line. rewrite !length_append, length_slice_to.
  assert (String.length
            (if decide (Message.role msg = "user") then "User" else "Assistant")
          <= 9)%nat by (destruct (decide _); simpl; lia).
  assert (String.length
            (if (150 <? String.length
                          (default EmptyString (Message.content msg)))%nat
             then "..." else EmptyString) <= 3)%nat
    by (destruct (_ <? _)%nat; simpl; lia).
  change (String.length ": ") with 2%nat.
  change (String.length Gemini.nl) with 1%nat. lia.
Qed.

Lemma length_fold_history_lines (l : list Message.t) (init : string) :
  (String.length
     (fold_left (fun acc msg => acc +:+ Gemini.history_line msg) l init)
   <= String.length init + 165 * length l)%nat.
Proof.
  revert init. induction l as [|msg l IH]; intros init; simpl; [lia|].
  specialize (IH (init +:+ Gemini.history_line msg)).
  rewrite length_append in IH.
  pose proof (length_history_line msg). lia.
Qed.

(** X11: the history part of the prompt looks at a bounded window. It is
    empty for a history of at most one message; it does not depend on the
    last message of the history (the one being answered) nor on anything
    older than the last six; and it never exceeds 856 characters, however
    long the history and its messages are. *)
Theorem history_context_window :
  (forall h : list Message.t,
     (length h <= 1)%nat -> Gemini.history_context h = EmptyString) /\
  (forall (h : list Message.t) (m m' : Message.t),
     Gemini.history_context (h ++ [m]) = Gemini.history_context (h ++ [m'])) /\
  (forall older recent : list Message.t,
     length recent = 6%nat ->
     Gemini.history_context (older ++ recent) = Gemini.history_context recent) /\
  (forall h : list Message.t,
     (String.length (Gemini.history_context h) <= 856)%nat).
Proof.
  split; [|split; [|split]].
  - intros h Hlen. unfold Gemini.history_context.
    now destruct (Nat.ltb_spec 1 (length h)); [lia|].
  - intros h m m'. now rewrite !history_context_snoc.
  - intros older recent Hlen. unfold Gemini.history_context.
    rewrite (last_n_app_exact 6 older recent Hlen).
    pose proof (last_n_app_exact 6 [] recent Hlen) as Hown.
    simpl in Hown. rewrite Hown.
    rewrite length_app, Hlen.
    now destruct (Nat.ltb_spec 1 (length older + 6)); [|lia].
  - intros h. destruct (decide (h = [])) as [->|Hne]; [simpl; lia|].
    destruct (exists_last Hne) as (h' & m & ->).
    rewrite history_context_snoc. destruct h' as [|x h']; [simpl; lia|].
    etransitivity; [apply length_fold_history_lines|].
    assert (length (PyList.last_n 5 (x :: h')) <= 5)%nat
      by (unfold PyList.last_n; rewrite length_drop; lia).
    change (String.length
              (Gemini.nl +:+ Gemini.nl +:+ "Recent conversation context:"
               +:+ Gemini.nl)) with 31%nat.
    lia.
Qed.

Lemma history_context_window_witness :
  Gemini.history_context [Sample.happy] = EmptyString /\
  Gemini.history_context
    ([Sample.long_message]
     ++ [Sample.anxious; Sample.reply; Sample.happy; Sample.anxious;
         Sample.reply; Sample.happy])
  = Gemini.history_context
      [Sample.anxious; Sample.reply; Sample.happy; Sample.anxious;
       Sample.reply; Sample.happy].
Proof.
  destruct history_context_window as (Hshort & _ & Hwindow & _).
  split.
  - apply Hshort. simpl. lia.
  - apply Hwindow. reflexivity.
Defined.

Lemma usable_text_nonempty (r : Gemini.response) (text : string) :
  Gemini.usable_text r = Py.Return (Some text) -> text <> EmptyString.
Proof.
  destruct r as [| |e|s]; simpl; try discriminate.
  destruct s; simpl; [discriminate|]. now intros [= <-].
Qed.

Lemma simple_retry_nonempty (user_message : string) (g : Gemini.model) :
  Gemini.simple_retry user_message g <> EmptyString.
Proof.
  unfold Gemini.simple_retry.
  destruct (Py.bind _ Gemini.usable_text) as [[text|]|e] eqn:E;
    try discriminate.
  unfold Py.bind in E.
  destruct (g _ None) as [r|e]; [|discriminate].
  now apply (usable_text_nonempty r).
Qed.

(** X12: [generate_gemini_response] always produces a non-empty reply and
    touches neither the session nor the disk. Without a model it calls
    nothing. With one, its first call carries the full prompt and the
    generation configuration; it makes a second call, with the minimal
    prompt and no configuration, exactly when the first attempt raised
    (the call itself or the reading of the text); a non-empty text from the
    first attempt is the reply, verbatim. *)
Theorem generate_gemini_response_discipline (percent_1 : float -> string)
    (user_message : string) (emotion_analysis : EmotionAnalysis.t)
    (conversation_history : list Message.t)
    (gemini_model : option Gemini.model) (w : Utils.world) :
  let '(reply, calls, w') :=
    Gemini.generate_gemini_response percent_1 user_message emotion_analysis
      conversation_history gemini_model w in
  let first :=
    (Gemini.full_prompt percent_1 user_message emotion_analysis
       conversation_history, Some Gemini.config) in
  let second := ("Please respond to: " +:+ user_message, None) in
  reply <> EmptyString /\
  Utils.st w' = Utils.st w /\ Utils.disk w' = Utils.disk w /\
  Utils.classifier_log w' = Utils.classifier_log w /\
  match gemini_model with
  | None => calls = [] /\ w' = w
  | Some generate_content =>
      (calls = [first] \/ calls = [first; second]) /\
      (calls = [first; second] <->
       exists e, Py.bind (generate_content (fst first) (snd first))
                   Gemini.usable_text = Py.Raise e) /\
      (forall text,
         generate_content (fst first) (snd first)
           = Py.Return (Gemini.Text text) ->
         text <> EmptyString -> reply = text /\ calls = [first] /\ w' = w)
  end.
Proof.
  unfold Gemini.generate_gemini_response.
  destruct gemini_model as [g|].
  - set (prompt := Gemini.full_prompt percent_1 user_message emotion_analysis
                     conversation_history).
    destruct (Py.bind (g prompt (Some Gemini.config)) Gemini.usable_text)
      as [[text|]|e] eqn:E; simpl.
    + split.
      { unfold Py.bind in E. destruct (g prompt (Some Gemini.config)) as [r|e];
          [|discriminate]. now apply (usable_text_nonempty r). }
      do 3 (split; [reflexivity|]).
      split; [now left|]. split.
      * split; [discriminate|]. intros [e He]. simpl in He.
        fold prompt in He. rewrite E in He. discriminate.
      * intros text' Hg Hne. rewrite Hg in E. simpl in E.
        destruct text'; [now destruct Hne|]. simpl in E.
        injection E as <-. now repeat split.
    + split; [discriminate|]. do 3 (split; [reflexivity|]).
      split; [now left|]. split.
      * split; [discriminate|]. intros [e He]. simpl in He.
        fold prompt in He. rewrite E in He. discriminate.
      * intros text' Hg Hne. rewrite Hg in E. simpl in E.
        destruct text'; [now destruct Hne|]. discriminate.
    + split; [apply simple_retry_nonempty|].
      do 3 (split; [reflexivity|]).
      split; [now right|]. split.
      * split; [intros _; now exists e|reflexivity].
      * intros text' Hg Hne. rewrite Hg in E. simpl in E. discriminate.
  - simpl. split; [discriminate|]. now repeat split.
Qed.

Lemma generate_gemini_response_discipline_witness :
  let '(reply, calls, _) :=
    Gemini.generate_gemini_response Sample.percent_1 "I feel anxious"
      Sample.fear [Sample.anxious] (Some Sample.gemini) Sample.utils_world in
  reply = "I hear that you're anxious. Tell me more." /\ length calls = 1%nat.
Proof.
  pose proof (generate_gemini_response_discipline Sample.percent_1
                "I feel anxious" Sample.fear [Sample.anxious]
                (Some Sample.gemini) Sample.utils_world) as H.
  destruct (Gemini.generate_gemini_response Sample.percent_1 "I feel anxious"
              Sample.fear [Sample.anxious] (Some Sample.gemini)
              Sample.utils_world) as [[reply calls] w'].
  destruct H as (_ & _ & _ & _ & _ & _ & Htext).
  destruct (Htext "I hear that you're anxious. Tell me more." eq_refl)
    as (Hreply & Hcalls & _); [discriminate|].
  split; [exact Hreply|]. now rewrite Hcalls.
Defined.

(** ** Sending a message *)

(** The reply generator leaves session, disk and classifier log alone and
    never returns an empty reply. *)
Lemma generate_gemini_response_frame (percent_1 : float -> string)
    (user_message : string) (emotion_analysis : EmotionAnalysis.t)
    (conversation_history : list Message.t)
    (gemini_model : option Gemini.model) (w : Utils.world) :
  exists reply calls w',
    Gemini.generate_gemini_response percent_1 user_message emotion_analysis
      conversation_history gemini_model w = (reply, calls, w') /\
    reply <> EmptyString /\ (length calls <= 2)%nat /\
    Utils.st w' = Utils.st w /\ Utils.disk w' = Utils.disk w /\
    Utils.classifier_log w' = Utils.classifier_log w.
Proof.
  unfold Gemini.generate_gemini_response.
  destruct gemini_model as [g|].
  - destruct (Py.bind _ Gemini.usable_text) as [[text|]|e] eqn:E.
    + eexists _, _, _. split; [reflexivity|]. split.
      { unfold Py.bind in E. destruct (g _ _) as [r|e]; [|discriminate].
        now apply (usable_text_nonempty r). }
      simpl. repeat split; lia.
    + eexists _, _, _. split; [reflexivity|]. split; [discriminate|].
      simpl. repeat split; lia.
    + eexists _, _, _. split; [reflexivity|].
      split; [apply simple_retry_nonempty|]. simpl. repeat split; lia.
  - eexists _, _, _. split; [reflexivity|]. split; [discriminate|].
    simpl. repeat split; lia.
Qed.

(** X13: [handle_user_input] refuses to run without an API key, without a
    connection or without an emotion model: it stops the script after one
    error notice; no message is appended, the history and the disk are
    untouched, and neither the classifier nor the reply generator is
    called. *)
Theorem handle_user_input_refuses (percent_1 : float -> string)
    (prompt : string) (api_key : option string)
    (now_user now_bot now_archive : Datetime.t) (w : App.world) :
  App.key_given api_key = false \/ App.api_connected w = false
  \/ App.model_available (App.emotion_data w) = false ->
  let out :=
    App.handle_user_input percent_1 prompt api_key now_user now_bot
      now_archive w in
  fst out = App.Stopped /\
  Utils.st (App.base (snd out)) = Utils.st (App.base w) /\
  Utils.disk (App.base (snd out)) = Utils.disk (App.base w) /\
  Utils.classifier_log (App.base (snd out))
    = Utils.classifier_log (App.base w) /\
  App.gemini_log (snd out) = App.gemini_log w /\
  exists notice,
    Utils.ui (App.base (snd out)) = Utils.ui (App.base w) ++ [notice] /\
    St.lvl notice = St.error.
Proof.
  intros Hguard out. subst out. unfold App.handle_user_input.
  destruct (negb (App.key_given api_key) || negb (App.api_connected w)) eqn:G1.
  - simpl. do 5 (split; [reflexivity|]). eexists. split; reflexivity.
  - apply orb_false_iff in G1 as [Hk Hc].
    apply negb_false_iff in Hk, Hc.
    destruct Hguard as [H|[H|H]]; try congruence.
    rewrite H. simpl. do 5 (split; [reflexivity|]).
    eexists. split; reflexivity.
Qed.

Lemma handle_user_input_refuses_witness :
  let out :=
    App.handle_user_input Sample.percent_1 "I feel anxious" (Some "key")
      Sample.noon Sample.noon_and_a_half Sample.one_pm
      Sample.app_world_offline in
  fst out = App.Stopped /\
  Utils.messages (Utils.st (App.base (snd out))) = [].
Proof.
  destruct (handle_user_input_refuses Sample.percent_1 "I feel anxious"
              (Some "key") Sample.noon Sample.noon_and_a_half Sample.one_pm
              Sample.app_world_offline) as (Hout & Hst & _).
  - right. left. reflexivity.
  - split; [exact Hout|]. now rewrite Hst.
Defined.

(** What a run of [handle_user_input] past its guards does. *)
Lemma handle_user_input_run (percent_1 : float -> string)
    (prompt : string) (api_key : option string)
    (now_user now_bot now_archive : Datetime.t) (w : App.world) :
  App.key_given api_key = true -> App.api_connected w = true ->
  App.model_available (App.emotion_data w) = true ->
  exists emotion_analysis reply calls b,
    let messages :=
      Utils.messages (Utils.st (App.base w)) ++
        [ {| Message.role := "user";
             Message.content := Some prompt;
             Message.emotion_analysis := Some emotion_analysis;
             Message.timestamp := Datetime.isoformat now_user |};
          {| Message.role := "assistant";
             Message.content := Some reply;
             Message.emotion_analysis := None;
             Message.timestamp := Datetime.isoformat now_bot |} ] in
    let history :=
      <[Utils.current_chat_id (Utils.st (App.base w)) :=
          Sidebar.archive_record messages now_archive]>
        (Utils.chat_history (Utils.st (App.base w))) in
    App.handle_user_input percent_1 prompt api_key now_user now_bot
      now_archive w
    = (App.Completed,
       App.log_calls calls
         (App.set_base
            (Utils.save_chat_history history
               (Utils.set_st
                  {| Utils.chat_history := history;
                     Utils.current_chat_id :=
                       Utils.current_chat_id (Utils.st (App.base w));
                     Utils.messages := messages |} b)) w)) /\
    reply <> EmptyString /\ (length calls <= 2)%nat /\
    Utils.disk b = Utils.disk (App.base w).
Proof.
  intros Hk Hc Hm. unfold App.handle_user_input.
  rewrite Hk, Hc, Hm. cbn [negb orb].
  destruct (analyze_emotion_cases prompt (App.emotion_data w) (App.base w))
    as (ea & b1 & Hrun & Hst1 & Hdisk1 & _).
  rewrite Hrun. cbv zeta.
  set (user_message := {| Message.role := "user";
                          Message.content := Some prompt;
                          Message.emotion_analysis := Some ea;
                          Message.timestamp := Datetime.isoformat now_user |}).
  destruct (generate_gemini_response_frame percent_1 prompt ea
              (Utils.messages (Utils.st (App.append_message user_message b1)))
              (App.gemini_model w) (App.append_message user_message b1))
    as (reply & calls & b2 & Hgen & Hne & Hcalls & Hst2 & Hdisk2 & _).
  subst user_message. rewrite Hgen. exists ea, reply, calls, b2.
  split; [|split; [exact Hne|split; [exact Hcalls|]]].
  - unfold App.append_message in Hst2. unfold Utils.set_st in Hst2 at 1.
    cbn [Utils.st] in Hst2. rewrite Hst1 in Hst2.
    unfold App.append_message, Utils.set_st.
    cbn [Utils.st Utils.chat_history Utils.current_chat_id Utils.messages
         Utils.disk Utils.ui Utils.classifier_log].
    rewrite !Hst2.
    cbn [Utils.st Utils.chat_history Utils.current_chat_id Utils.messages].
    rewrite <- !app_assoc. reflexivity.
  - rewrite Hdisk2. unfold App.append_message. simpl. exact Hdisk1.
Qed.

(** X14: past its guards, [handle_user_input] runs to its end without
    raising. It appends exactly two messages to those of the session, the
    user's (with the prompt as content and an emotion analysis) and then the
    assistant's (with a non-empty reply and no analysis), keeps the chat
    identifier, stores the whole message list in the history under that
    identifier, and leaves the history on disk when the file is writable;
    when it is not, the disk is unchanged and the session keeps the
    messages all the same. *)
Theorem handle_user_input_appends_and_archives (percent_1 : float -> string)
    (prompt : string) (api_key : option string)
    (now_user now_bot now_archive : Datetime.t) (w : App.world) :
  App.key_given api_key = true -> App.api_connected w = true ->
  App.model_available (App.emotion_data w) = true ->
  let out :=
    App.handle_user_input percent_1 prompt api_key now_user now_bot
      now_archive w in
  let before := Utils.st (App.base w) in
  let after := Utils.st (App.base (snd out)) in
  fst out = App.Completed /\
  (exists user_message bot_message reply,
     Utils.messages after
       = Utils.messages before ++ [user_message; bot_message] /\
     Message.role user_message = "user" /\
     Message.content user_message = Some prompt /\
     is_Some (Message.emotion_analysis user_message) /\
     Message.role bot_message = "assistant" /\
     Message.content bot_message = Some reply /\ reply <> EmptyString /\
     Message.emotion_analysis bot_message = None) /\
  Utils.current_chat_id after = Utils.current_chat_id before /\
  Utils.chat_history after =
    <[Utils.current_chat_id before :=
        Sidebar.archive_record (Utils.messages after) now_archive]>
      (Utils.chat_history before) /\
  (Utils.CHAT_HISTORY_FILE ∉ Fs.readonly (Utils.disk (App.base w)) ->
   Fs.files (Utils.disk (App.base (snd out))) !! Utils.CHAT_HISTORY_FILE
     = Some (Fs.Json (Utils.chat_history after))) /\
  (Utils.CHAT_HISTORY_FILE ∈ Fs.readonly (Utils.disk (App.base w)) ->
   Utils.disk (App.base (snd out)) = Utils.disk (App.base w)).
Proof.
  intros Hk Hc Hm out before after. subst out before after.
  destruct (handle_user_input_run percent_1 prompt api_key now_user now_bot
              now_archive w Hk Hc Hm)
    as (ea & reply & calls & b & Hrun & Hne & _ & Hdisk).
  cbv zeta in Hrun. rewrite Hrun.
  cbn [fst snd App.log_calls App.set_base App.base].
  rewrite utils_save_st. cbn [Utils.set_st Utils.st Utils.messages
                              Utils.current_chat_id Utils.chat_history].
  split; [reflexivity|]. split.
  { eexists _, _, reply. split; [reflexivity|]. simpl.
    repeat split; eauto. }
  split; [reflexivity|]. split; [reflexivity|]. split.
  - intros Hrw. rewrite utils_save_writable by (simpl; now rewrite Hdisk).
    simpl. apply lookup_insert_eq.
  - intros Hro. rewrite utils_save_readonly by (simpl; now rewrite Hdisk).
    simpl. exact Hdisk.
Qed.

Lemma handle_user_input_appends_and_archives_witness :
  let out :=
    App.handle_user_input Sample.percent_1 "I feel anxious" (Some "key")
      Sample.noon Sample.noon_and_a_half Sample.one_pm Sample.app_world in
  fst out = App.Completed /\
  length (Utils.messages (Utils.st (App.base (snd out)))) = 2%nat /\
  Fs.files (Utils.disk (App.base (snd out))) !! Utils.CHAT_HISTORY_FILE
    = Some (Fs.Json (Utils.chat_history (Utils.st (App.base (snd out))))).
Proof.
  destruct (handle_user_input_appends_and_archives Sample.percent_1
              "I feel anxious" (Some "key") Sample.noon Sample.noon_and_a_half
              Sample.one_pm Sample.app_world eq_refl eq_refl eq_refl)
    as (Hout & (u & b & reply & Hmsgs & _) & _ & _ & Hdisk & _).
  split; [exact Hout|]. split.
  - rewrite Hmsgs. reflexivity.
  - apply Hdisk. sample_writable.
Defined.

(** X15: an exchange followed by "New Chat" loses nothing: the history then
    holds, under the identifier the chat had, an entry with all the messages
    of the chat, the two new ones last, titled after its first message; the
    other entries are those the history had before the exchange, and the
    session is empty under a new identifier. *)
Theorem exchange_then_new_chat_keeps_conversation
    (percent_1 : float -> string) (prompt : string) (api_key : option string)
    (now_user now_bot now_archive now_archive' now_create : Datetime.t)
    (w : App.world) :
  App.key_given api_key = true -> App.api_connected w = true ->
  App.model_available (App.emotion_data w) = true ->
  let before := Utils.st (App.base w) in
  let w1 :=
    snd (App.handle_user_input percent_1 prompt api_key now_user now_bot
           now_archive w) in
  let w2 := Sidebar.handle_new_chat now_archive' now_create (App.base w1) in
  (exists user_message bot_message,
     Utils.chat_history (Utils.st w2) !! Utils.current_chat_id before
     = Some (Sidebar.archive_record
               (Utils.messages before ++ [user_message; bot_message])
               now_archive') /\
     Message.content user_message = Some prompt) /\
  (forall other, other <> Utils.current_chat_id before ->
     Utils.chat_history (Utils.st w2) !! other
     = Utils.chat_history before !! other) /\
  Utils.messages (Utils.st w2) = [] /\
  Utils.current_chat_id (Utils.st w2) = Utils.create_new_chat now_create.
Proof.
  intros Hk Hc Hm before w1 w2. subst before w1 w2.
  destruct (handle_user_input_run percent_1 prompt api_key now_user now_bot
              now_archive w Hk Hc Hm)
    as (ea & reply & calls & b & Hrun & _).
  cbv zeta in Hrun. rewrite Hrun.
  cbn [fst snd App.log_calls App.set_base App.base].
  rewrite handle_new_chat_st, utils_save_st.
  cbn [Utils.set_st Utils.st Utils.messages Utils.current_chat_id
       Utils.chat_history].
  destruct (Utils.messages (Utils.st (App.base w)) ++ _) as [|m ms] eqn:Hmsgs.
  { now apply app_eq_nil in Hmsgs as [_ Hmsgs]. }
  rewrite <- Hmsgs. split.
  { eexists _, _. split; [apply lookup_insert_eq|reflexivity]. }
  split; [|split; reflexivity].
  intros other Ho. now rewrite !lookup_insert_ne by congruence.
Qed.

Lemma exchange_then_new_chat_keeps_conversation_witness :
  let w1 :=
    snd (App.handle_user_input Sample.percent_1 "I feel anxious" (Some "key")
           Sample.noon Sample.noon_and_a_half Sample.one_pm Sample.app_world) in
  let w2 := Sidebar.handle_new_chat Sample.one_pm Sample.one_pm (App.base w1) in
  exists entry,
    Utils.chat_history (Utils.st w2) !! "chat_20240101_115800" = Some entry /\
    ChatEntry.title entry = Some "I feel anxious" /\
    Utils.messages (Utils.st w2) = [].
Proof.
  destruct (exchange_then_new_chat_keeps_conversation Sample.percent_1
              "I feel anxious" (Some "key") Sample.noon Sample.noon_and_a_half
              Sample.one_pm Sample.one_pm Sample.one_pm Sample.app_world
              eq_refl eq_refl eq_refl)
    as ((u & b & Hentry & Hcontent) & _ & Hmsgs & _).
  eexists. split; [exact Hentry|]. split; [|exact Hmsgs].
  simpl. unfold Utils.get_chat_title. rewrite Hcontent. reflexivity.
Defined.

(** ** The API connection and start-up *)

(** X16: the two functions that should connect to the API call
    [setup_gemini_api] with an argument it does not take. Whenever a key is
    given and the session is not connected they raise [TypeError] and leave
    the session as it is; in every other case they change nothing. Neither
    ever marks the session as connected, reads the environment or builds a
    model. *)
Theorem api_connection_is_never_made (getenv : string -> option string)
    (connect : string -> option string -> Py.result Gemini.model)
    (api_key : option string) (retry_pressed : bool) (w : App.world) :
  Connection.handle_api_connection getenv connect api_key retry_pressed w =
    (if App.key_given api_key && negb (App.api_connected w)
     then Connection.TypeError
            "setup_gemini_api() takes 0 positional arguments but 1 was given"
     else Connection.Finished, w) /\
  Connection.setup_api_connection getenv connect api_key w =
    (if App.key_given api_key && negb (App.api_connected w)
     then inl "setup_gemini_api() takes 0 positional arguments but 1 was given"
     else inr (App.api_connected w, w)).
Proof.
  unfold Connection.handle_api_connection, Connection.setup_api_connection.
  destruct (App.key_given api_key && negb (App.api_connected w)) eqn:E;
    simpl; [split; reflexivity|].
  rewrite E. split; reflexivity.
Qed.

(** [load_chat_history] returns, unless [open] or [json.load] raise on the
    file that is there an exception that its [except] clause does not name;
    that exception then escapes and nothing has changed. *)
Lemma load_chat_history_outcome (now : Datetime.t) (w : Utils.world) :
  (exists history w',
     Utils.load_chat_history now w = (Py.Return history, w') /\
     Utils.st w' = Utils.st w /\
     Utils.classifier_log w' = Utils.classifier_log w /\
     (Fs.exists_ (Utils.disk w) Utils.CHAT_HISTORY_FILE = true ->
      forall e,
        Fs.json_load (Utils.disk w) Utils.CHAT_HISTORY_FILE = Py.Raise e ->
        Utils.is_decode_error e = true))
  \/ (exists e,
        Utils.load_chat_history now w = (Py.Raise e, w) /\
        Fs.exists_ (Utils.disk w) Utils.CHAT_HISTORY_FILE = true /\
        Fs.json_load (Utils.disk w) Utils.CHAT_HISTORY_FILE = Py.Raise e /\
        Utils.is_decode_error e = false).
Proof.
  unfold Utils.load_chat_history.
  destruct (Fs.exists_ (Utils.disk w) Utils.CHAT_HISTORY_FILE) eqn:Hex.
  - destruct (Fs.json_load (Utils.disk w) Utils.CHAT_HISTORY_FILE)
      as [history|e] eqn:Hload.
    + left. exists history, w. repeat split. intros _ e He. discriminate He.
    + destruct (Utils.is_decode_error e) eqn:He.
      * left. simpl.
        destruct (Fs.rename (Utils.disk w) Utils.CHAT_HISTORY_FILE _);
          eexists _, _; (split; [reflexivity|]); simpl;
          (split; [reflexivity|]); (split; [reflexivity|]);
          intros _ e' [= <-]; exact He.
      * right. exists e. now repeat split.
  - left. exists ∅, w. repeat split. intros H. discriminate H.
Qed.

(** X17: [initialize_session_state] raises exactly when the session has no
    chat history yet and [open] or [json.load] raise, on the history file
    that is there, an exception that [load_chat_history] does not catch (the
    file cannot be opened, its text nests too deeply); it raises that
    exception, and in every other case it returns. On a session that has
    all its keys it changes nothing and touches neither the disk nor the
    page. When it returns, it has halted the script exactly when the emotion
    model is not yet in the session and cannot be loaded; the failure is
    then kept in the session, so that the model counts as unavailable from
    then on. *)
Theorem initialize_session_state_outcomes (now_backup now_id : Datetime.t)
    (loaded : Py.result pipeline) :
  (forall w data,
     App.emotion_data w = Some data ->
     Connection.initialize_session_state now_backup now_id loaded
       (Connection.startup_of w) = inr (Connection.Finished, w)) /\
  (forall s,
     let escapes e :=
       Connection.known_chat_history s = None /\
       Fs.exists_ (Connection.on_disk s) Utils.CHAT_HISTORY_FILE = true /\
       Fs.json_load (Connection.on_disk s) Utils.CHAT_HISTORY_FILE
         = Py.Raise e /\
       Utils.is_decode_error e = false in
     match Connection.initialize_session_state now_backup now_id loaded s with
     | inl e => escapes e
     | inr (ending, w) =>
         (forall e, ~ escapes e) /\
         (ending = Connection.Finished \/ ending = Connection.Halted) /\
         (ending = Connection.Halted <->
          Connection.known_emotion_data s = None
          /\ exists e, loaded = Py.Raise e) /\
         (ending = Connection.Halted ->
          App.emotion_data w = Some (None, None) /\
          App.model_available (App.emotion_data w) = false)
     end).
Proof.
  split.
  - intros w data Hdata. unfold Connection.initialize_session_state.
    destruct w as [[[h c m] d u l] g a ed gl]. simpl in *. subst ed.
    reflexivity.
  - intros s escapes. unfold Connection.initialize_session_state.
    set (w0 := {| Utils.st := _; Utils.disk := Connection.on_disk s;
                  Utils.ui := _; Utils.classifier_log := _ |}).
    assert (Hrun :
      (exists history w1,
         match Connection.known_chat_history s with
         | Some history => (Py.Return history, w0)
         | None => Utils.load_chat_history now_backup w0
         end = (Py.Return history, w1) /\ forall e, ~ escapes e)
      \/ (exists e,
            match Connection.known_chat_history s with
            | Some history => (Py.Return history, w0)
            | None => Utils.load_chat_history now_backup w0
            end = (Py.Raise e, w0) /\ escapes e)).
    { subst escapes. cbv beta.
      destruct (Connection.known_chat_history s) as [h|].
      - left. exists h, w0. split; [reflexivity|].
        intros e (H & _). discriminate H.
      - destruct (load_chat_history_outcome now_backup w0)
          as [(h & w1 & Hl & _ & _ & Hcaught) | (e & Hl & Hex & Hload & He)].
        + left. exists h, w1. split; [exact Hl|].
          intros e (_ & Hex & Hload & He).
          rewrite (Hcaught Hex e Hload) in He. discriminate He.
        + right. exists e. split; [exact Hl|]. now repeat split. }
    destruct Hrun as [(history & w1 & -> & Hnone) | (e & -> & Hesc)];
      [|exact Hesc].
    destruct (Connection.known_emotion_data s) as [data|] eqn:Hdata.
    + split; [exact Hnone|]. split; [now left|]. split.
      * split; [discriminate|]. intros [? _]. discriminate.
      * discriminate.
    + destruct loaded as [p|e]; simpl.
      * split; [exact Hnone|]. split; [now left|]. split.
        -- split; [discriminate|]. intros [_ [e He]]. discriminate.
        -- discriminate.
      * split; [exact Hnone|]. split; [now right|]. split.
        -- split; [intros _; split; [reflexivity|now exists e]|reflexivity].
        -- intros _. split; reflexivity.
Qed.

Lemma initialize_session_state_outcomes_witness :
  Connection.initialize_session_state Sample.noon Sample.one_pm
    (Py.Raise (Py.RuntimeError "CUDA out of memory"))
    (Connection.startup_of Sample.app_world)
  = inr (Connection.Finished, Sample.app_world) /\
  Connection.initialize_session_state Sample.noon Sample.one_pm
    (Py.Return Sample.classifier) Sample.first_run_nested
  = inl Py.RecursionError.
Proof.
  split.
  - apply (proj1 (initialize_session_state_outcomes Sample.noon Sample.one_pm
                    (Py.Raise (Py.RuntimeError "CUDA out of memory")))
             Sample.app_world
             (Some Sample.classifier, Some "distilbert-emotion")).
    reflexivity.
  - pose proof (proj2 (initialize_session_state_outcomes Sample.noon
                         Sample.one_pm (Py.Return Sample.classifier))
                  Sample.first_run_nested) as H.
    cbv zeta in H.
    destruct (Connection.initialize_session_state Sample.noon Sample.one_pm
                (Py.Return Sample.classifier) Sample.first_run_nested)
      as [e|[ending w]].
    + destruct H as (_ & _ & Hload & _). now injection Hload as <-.
    + destruct H as (Hnone & _). exfalso.
      apply (Hnone Py.RecursionError). now repeat split.
Defined.

(** ** The stored user identifier *)

Lemma rstrip_no_space (s : string) :
  Py.all_chars (fun c => negb (Py.isspace c)) s = true -> Py.rstrip s = s.
Proof.
  induction s as [|c s IH]; simpl; [reflexivity|].
  rewrite andb_true_iff, negb_true_iff. intros [Hc Hs].
  rewrite (IH Hs). destruct s; [now rewrite Hc|reflexivity].
Qed.

Lemma strip_user_id (suffix : string) :
  Py.all_chars (fun c => negb (Py.isspace c)) suffix = true ->
  Py.strip ("user_" +:+ suffix) = "user_" +:+ suffix.
Proof.
  intros H. unfold Py.strip. rewrite !append_cons, append_nil.
  change (Py.lstrip (String "u" (String "s" (String "e" (String "r"
            (String "_" suffix))))))
    with (String "u" (String "s" (String "e" (String "r" (String "_" suffix))))).
  apply rstrip_no_space. simpl. exact H.
Qed.

(** X18: when the marker file can be written, the user identifier is
    stable across restarts unless the mode of the file forbids reading it:
    whatever else the file held before (nothing, an identifier, blank text,
    bytes that are not text), the identifier one run obtains is the one every
    later run obtains, whatever the random draws, and later runs leave the
    file alone. A marker file that can be written and not read never gives
    its identifier back: each run obtains the identifier of its own random
    draw, and the file is as unreadable afterwards as before. (The sixteen
    digits taken from the UUID contain no whitespace.) *)
Theorem generate_user_id_stable (uuid_hex uuid_hex' : string) (s : UserId.store) :
  UserId.writable s = true ->
  Py.all_chars (fun c => negb (Py.isspace c)) (Py.slice_to 16 uuid_hex) = true ->
  let first := UserId._generate_user_id uuid_hex s in
  let second := UserId._generate_user_id uuid_hex' (snd first) in
  (UserId.file s <> UserId.Unreadable ->
   fst second = fst first /\ snd second = snd first) /\
  (UserId.file s = UserId.Unreadable ->
   fst first = "user_" +:+ Py.slice_to 16 uuid_hex /\
   fst second = "user_" +:+ Py.slice_to 16 uuid_hex' /\
   snd second = s).
Proof.
  intros Hw Hhex first second. subst first second.
  assert (Hfresh :
    UserId._generate_user_id uuid_hex'
      {| UserId.file := UserId.Content ("user_" +:+ Py.slice_to 16 uuid_hex);
         UserId.writable := UserId.writable s |}
    = ("user_" +:+ Py.slice_to 16 uuid_hex,
       {| UserId.file := UserId.Content ("user_" +:+ Py.slice_to 16 uuid_hex);
          UserId.writable := UserId.writable s |})).
  { unfold UserId._generate_user_id, UserId._get_stored_user_id. simpl.
    rewrite (strip_user_id _ Hhex). now rewrite append_cons. }
  rewrite Hw in Hfresh.
  split.
  - intros Hmode.
    assert (Hfirst :
      (exists text, UserId.file s = UserId.Content text /\
                    Py.truthy (Py.strip text) = true /\
                    UserId._generate_user_id uuid_hex s = (Py.strip text, s))
      \/ UserId._generate_user_id uuid_hex s
         = ("user_" +:+ Py.slice_to 16 uuid_hex,
            {| UserId.file :=
                 UserId.Content ("user_" +:+ Py.slice_to 16 uuid_hex);
               UserId.writable := true |})).
    { unfold UserId._generate_user_id, UserId._get_stored_user_id,
        UserId._store_user_id. rewrite Hw.
      destruct (UserId.file s) as [|text| |];
        [now right| |now right|now destruct Hmode].
      destruct (Py.truthy (Py.strip text)) eqn:Ht; [left|now right].
      now exists text. }
    destruct Hfirst as [(text & Hfile & Ht & ->) | ->]; simpl.
    + unfold UserId._generate_user_id, UserId._get_stored_user_id.
      rewrite Hfile, Ht. now split.
    + rewrite Hfresh. now split.
  - intros Hmode.
    assert (H : forall h, UserId._generate_user_id h s
                          = ("user_" +:+ Py.slice_to 16 h, s)).
    { intros h. unfold UserId._generate_user_id, UserId._get_stored_user_id,
        UserId._store_user_id. rewrite Hw, Hmode.
      destruct s as [f wr]. simpl in *. now subst. }
    rewrite H. simpl. rewrite H. now repeat split.
Qed.

Lemma generate_user_id_stable_witness :
  let first :=
    UserId._generate_user_id Sample.uuid_a
      {| UserId.file := UserId.Content "   "; UserId.writable := true |} in
  let locked :=
    {| UserId.file := UserId.Unreadable; UserId.writable := true |} in
  fst first = "user_0a1b2c3d4e5f4071" /\
  fst (UserId._generate_user_id Sample.uuid_c (snd first))
    = "user_0a1b2c3d4e5f4071" /\
  fst (UserId._generate_user_id Sample.uuid_c
         (snd (UserId._generate_user_id Sample.uuid_a locked)))
    = "user_7f3e2d1c0b0a4f9e".
Proof.
  intros first locked. split; [reflexivity|]. split.
  - destruct (generate_user_id_stable Sample.uuid_a Sample.uuid_c
                {| UserId.file := UserId.Content "   ";
                   UserId.writable := true |} eq_refl eq_refl)
      as [Hstable _].
    destruct Hstable as [Hid _]; [discriminate|exact Hid].
  - destruct (generate_user_id_stable Sample.uuid_a Sample.uuid_c locked
                eq_refl eq_refl) as [_ Hlocked].
    destruct Hlocked as (_ & Hid & _); [reflexivity|exact Hid].
Defined.

(** X19: when the marker file cannot be written and holds no usable
    identifier (it is missing, unreadable or blank), each run gets the
    identifier of its own random draw and nothing is stored: the user is
    not recognised on the next run. *)
Theorem generate_user_id_not_stored (uuid_hex uuid_hex' : string)
    (s : UserId.store) :
  UserId.writable s = false ->
  match UserId._get_stored_user_id s with
  | Some stored => Py.truthy stored = false
  | None => True
  end ->
  UserId._generate_user_id uuid_hex s
    = ("user_" +:+ Py.slice_to 16 uuid_hex, s) /\
  fst (UserId._generate_user_id uuid_hex'
         (snd (UserId._generate_user_id uuid_hex s)))
    = "user_" +:+ Py.slice_to 16 uuid_hex'.
Proof.
  intros Hw Hstored.
  assert (H : forall h, UserId._generate_user_id h s
                        = ("user_" +:+ Py.slice_to 16 h, s)).
  { intros h. unfold UserId._generate_user_id, UserId._store_user_id.
    rewrite Hw. destruct (UserId._get_stored_user_id s) as [stored|];
      [now rewrite Hstored|reflexivity]. }
  rewrite H. simpl. rewrite H. now split.
Qed.

Lemma generate_user_id_not_stored_witness :
  let s := {| UserId.file := UserId.Missing; UserId.writable := false |} in
  fst (UserId._generate_user_id Sample.uuid_a s) = "user_0a1b2c3d4e5f4071" /\
  fst (UserId._generate_user_id Sample.uuid_c
         (snd (UserId._generate_user_id Sample.uuid_a s)))
    = "user_7f3e2d1c0b0a4f9e".
Proof.
  intros s.
  destruct (generate_user_id_not_stored Sample.uuid_a Sample.uuid_c s
              eq_refl I) as [H1 H2].
  split; [now rewrite H1|exact H2].
Defined.

(** ** Preferences, export and import *)






